(** * papers-mcp: the ar5iv HTML to Markdown converter

    A shallow embedding of [src/ar5iv-to-md.mjs].  The DOM that JSDOM hands
    to the converter is an inductive tree; every rendering function of the
    source is a Rocq function of the same name over that tree; the network
    fetch is a small state-and-error monad over a request log. *)

From Stdlib Require Import String Ascii List Bool Arith Lia ZArith.
From Stdlib Require Import Numbers.DecimalString.
Import ListNotations.
Open Scope list_scope.
Open Scope string_scope.

(* ================================================================== *)
(** * JavaScript strings *)
(* ================================================================== *)

(** Characters are code units below 256 (the Latin-1 range); the string
    primitives below are the JavaScript ones restricted to that range. *)
Module JsString.

Definition LF : string := String (ascii_of_nat 10) "".

(** [WhiteSpace] and [LineTerminator] of ECMAScript, below 256:
    TAB, LF, VT, FF, CR, SP and NBSP.  This is what [trim] removes and
    what the regular expression class [\s] matches. *)
Definition isSpace (c : ascii) : bool :=
  let n := nat_of_ascii c in
  ((9 <=? n)%nat && (n <=? 13)%nat) || (n =? 32)%nat || (n =? 160)%nat.

(** What [.] does not match in a regular expression without the [s] flag. *)
Definition isLineTerminator (c : ascii) : bool :=
  let n := nat_of_ascii c in (n =? 10)%nat || (n =? 13)%nat.

Definition nonEmpty (s : string) : bool :=
  match s with EmptyString => false | String _ _ => true end.

Fixpoint trimStart (s : string) : string :=
  match s with
  | EmptyString => EmptyString
  | String c r => if isSpace c then trimStart r else s
  end.

Fixpoint trimEnd (s : string) : string :=
  match s with
  | EmptyString => EmptyString
  | String c r =>
      let r' := trimEnd r in
      if isSpace c && negb (nonEmpty r') then EmptyString else String c r'
  end.

(** [String.prototype.trim]. *)
Definition trim (s : string) : string := trimEnd (trimStart s).

(** [s.replace(/c/g, by)] for a single character [c]. *)
Fixpoint replaceAll (c : ascii) (by_ : string) (s : string) : string :=
  match s with
  | EmptyString => EmptyString
  | String d r =>
      if Ascii.eqb d c then by_ ++ replaceAll c by_ r
      else String d (replaceAll c by_ r)
  end.

(** [s.replace(/\s+/g, ' ')]: [inRun] tells that the previous character
    belonged to the run of white space already replaced. *)
Fixpoint collapseSpaces (inRun : bool) (s : string) : string :=
  match s with
  | EmptyString => EmptyString
  | String c r =>
      if isSpace c
      then (if inRun then collapseSpaces true r
            else String " " (collapseSpaces true r))
      else String c (collapseSpaces false r)
  end.

Definition lowerChar (c : ascii) : ascii :=
  let n := nat_of_ascii c in
  if ((65 <=? n)%nat && (n <=? 90)%nat)
     || ((192 <=? n)%nat && (n <=? 222)%nat && negb (n =? 215)%nat)
  then ascii_of_nat (n + 32) else c.

(** [String.prototype.toLowerCase]. *)
Fixpoint toLowerCase (s : string) : string :=
  match s with
  | EmptyString => EmptyString
  | String c r => String (lowerChar c) (toLowerCase r)
  end.

(** [String.prototype.repeat]. *)
Fixpoint repeat (s : string) (n : nat) : string :=
  match n with
  | O => EmptyString
  | S k => s ++ repeat s k
  end.

(** [String.prototype.startsWith]. *)
Definition startsWith (s p : string) : bool := String.prefix p s.

(** [Array.prototype.join]. *)
Definition join (sep : string) (ls : list string) : string :=
  String.concat sep ls.

(** The accumulation [md += x] over a loop: the pieces in order. *)
Fixpoint appendAll (ls : list string) : string :=
  match ls with
  | [] => EmptyString
  | x :: xs => x ++ appendAll xs
  end.

(** The string without its last character, and that character. *)
Fixpoint splitLast (s : string) : option (string * ascii) :=
  match s with
  | EmptyString => None
  | String c r =>
      match splitLast r with
      | None => Some (EmptyString, c)
      | Some (i, l) => Some (String c i, l)
      end
  end.

Definition noLineTerminator (s : string) : bool :=
  forallb (fun c => negb (isLineTerminator c)) (list_ascii_of_string s).

(** [tag.replace(/^\((.+)\)$/, '$1')]: the pattern matches the whole
    string, an opening parenthesis, at least one character none of which
    is a line terminator, and a closing parenthesis. *)
Definition stripParens (tag : string) : string :=
  match tag with
  | String "(" r =>
      match splitLast r with
      | Some (inner, ")"%char) =>
          if nonEmpty inner && noLineTerminator inner then inner else tag
      | _ => tag
      end
  | _ => tag
  end.

(** [tag.replace(/^\[|\]$/g, '')]: a leading opening bracket and a
    trailing closing bracket are removed, each if present. *)
Definition stripBrackets (tag : string) : string :=
  let t := match tag with String "[" r => r | _ => tag end in
  match splitLast t with
  | Some (i, "]"%char) => i
  | _ => t
  end.

(** Decimal rendering of a number inside a template literal. *)
Definition ofNat (n : nat) : string :=
  NilZero.string_of_uint (Nat.to_uint n).

End JsString.
Import JsString.

(* ================================================================== *)
(** * The document tree *)
(* ================================================================== *)

#[local] Set Warnings "-register-all".

(** A DOM node as the converter sees it: a text node ([nodeType] 3), a
    comment ([nodeType] 8) or an element ([nodeType] 1) with its [tagName]
    as the DOM reports it (upper case for HTML elements, [math] for MathML),
    its [classList], its attributes and its [childNodes]. *)
Inductive Node : Type :=
| TextNode (data : string)
| CommentNode (data : string)
| Element (tagName : string) (classList : list string)
          (attributes : list (string * string)) (childNodes : list Node).

(** The [document] of a parsed page: its top-level nodes. *)
Record Document : Type := { documentNodes : list Node }.

Definition contains (classes : list string) (c : string) : bool :=
  existsb (String.eqb c) classes.

Definition tagNameOf (n : Node) : string :=
  match n with Element t _ _ _ => t | _ => "" end.


Definition childNodesOf (n : Node) : list Node :=
  match n with Element _ _ _ cs => cs | _ => [] end.

Fixpoint lookupAttr (name : string) (attrs : list (string * string))
  : option string :=
  match attrs with
  | [] => None
  | (k, v) :: rest => if k =? name then Some v else lookupAttr name rest
  end.

(** [el.getAttribute(name)]; [None] is JavaScript's [null]. *)
Definition getAttribute (el : Node) (name : string) : option string :=
  match el with
  | Element _ _ attrs _ => lookupAttr name attrs
  | _ => None
  end.

(** [value || fallback] for a value that is a string or [null]. *)
Definition orElse (o : option string) (fallback : string) : string :=
  match o with
  | Some s => if nonEmpty s then s else fallback
  | None => fallback
  end.

(** [node.textContent]: the text of all text-node descendants in document
    order; comments inside an element contribute nothing. *)
Fixpoint textContent (n : Node) : string :=
  match n with
  | TextNode data => data
  | CommentNode data => data
  | Element _ _ _ cs =>
      appendAll (map (fun c => match c with
                               | CommentNode _ => ""
                               | _ => textContent c
                               end) cs)
  end.

(** The element [n] and its element descendants in document order, each
    paired with its parent element. *)
Fixpoint subtree (parent : option Node) (n : Node)
  : list (option Node * Node) :=
  match n with
  | Element _ _ _ cs => (parent, n) :: flat_map (subtree (Some n)) cs
  | _ => []
  end.

Definition descendants (el : Node) : list (option Node * Node) :=
  flat_map (subtree (Some el)) (childNodesOf el).

Definition documentDescendants (doc : Document) : list (option Node * Node) :=
  flat_map (subtree None) (documentNodes doc).

(** ** Selectors

    The selector strings of the source, parsed: a compound selector is an
    optional type and an optional class; a selector is a comma-separated
    list of compounds, or two compounds joined by the child combinator. *)
Record Compound : Type := { selTag : option string; selClass : option string }.

Inductive Selector : Type :=
| AnyOf (alternatives : list Compound)
| ChildOf (parent child : Compound).

Definition byTag (t : string) : Compound :=
  {| selTag := Some t; selClass := None |}.
Definition byClass (c : string) : Compound :=
  {| selTag := None; selClass := Some c |}.
Definition byTagClass (t c : string) : Compound :=
  {| selTag := Some t; selClass := Some c |}.

(** Type selectors are written in lower case in the source and match the
    lower-cased [tagName]. *)
Definition matchesCompound (c : Compound) (n : Node) : bool :=
  match n with
  | Element tag classes _ _ =>
      match selTag c with Some t => toLowerCase tag =? t | None => true end
      && match selClass c with Some k => contains classes k | None => true end
  | _ => false
  end.

Definition matchesSelector (s : Selector) (pn : option Node * Node) : bool :=
  match s with
  | AnyOf alts => existsb (fun c => matchesCompound c (snd pn)) alts
  | ChildOf p c =>
      matchesCompound c (snd pn)
      && match fst pn with Some q => matchesCompound p q | None => false end
  end.

Definition select (s : Selector) (pool : list (option Node * Node))
  : list Node :=
  map snd (filter (matchesSelector s) pool).

(** [el.querySelectorAll(s)] and [el.querySelector(s)]. *)
Definition querySelectorAll (el : Node) (s : Selector) : list Node :=
  select s (descendants el).
Definition querySelector (el : Node) (s : Selector) : option Node :=
  hd_error (querySelectorAll el s).

(** [doc.querySelectorAll(s)] and [doc.querySelector(s)]. *)
Definition docQuerySelectorAll (doc : Document) (s : Selector) : list Node :=
  select s (documentDescendants doc).
Definition docQuerySelector (doc : Document) (s : Selector) : option Node :=
  hd_error (docQuerySelectorAll doc s).

(* ================================================================== *)
(** * Inline content *)
(* ================================================================== *)

(** [processMath]: the formula's alternate text between dollar signs. *)
Definition processMath (element : Node) : string :=
  if toLowerCase (tagNameOf element) =? "math" then
    let alttext := orElse (getAttribute element "alttext") "" in
    "$" ++ alttext ++ "$"
  else
    match querySelector element (AnyOf [byTag "math"]) with
    | Some math =>
        let alttext := orElse (getAttribute math "alttext") "" in
        "$" ++ alttext ++ "$"
    | None => ""
    end.

(** The selector ['a.ltx_ref, span.ltx_ref'] of a citation's pointers. *)
Definition refPointers : Selector :=
  AnyOf [byTagClass "a" "ltx_ref"; byTagClass "span" "ltx_ref"].

(** The texts a citation collects:
    [Array.from(refs).map((r) => r.textContent.trim()).filter(Boolean)]. *)
Definition citeTexts (el : Node) : list string :=
  filter nonEmpty
         (map (fun r => trim (textContent r)) (querySelectorAll el refPointers)).

(** One turn of the loop of [processInlineContent] over [childNodes];
    [self] is [processInlineContent] itself, called on the child. *)
Definition inlineNode (self : Node -> string) (node : Node) : string :=
  match node with
  | TextNode data => data
  | CommentNode _ => ""
  | Element tag classes _ _ =>
      let el := node in
      let tagName := toLowerCase tag in
      if (tagName =? "math") || contains classes "ltx_Math" then
        processMath el
      else if contains classes "ltx_cite" then
        "[" ++ join ", " (citeTexts el) ++ "]"
      else if contains classes "ltx_ref" then
        let href := orElse (getAttribute el "href") "" in
        let text := orElse (Some (textContent el)) "" in
        if startsWith href "#"
        then "[" ++ text ++ "](" ++ href ++ ")"
        else "[" ++ text ++ "](" ++ href ++ ")"
      else if contains classes "ltx_note" then
        let noteContent := orElse (Some (textContent el)) "" in
        if nonEmpty (trim noteContent)
        then " [^" ++ substring 0 50 (trim noteContent) ++ "]"
        else ""
      else if tagName =? "a" then
        let href := orElse (getAttribute el "href") "" in
        let text := orElse (Some (textContent el)) "" in
        "[" ++ text ++ "](" ++ href ++ ")"
      else if tagName =? "br" then
        LF
      else if contains classes "ltx_font_bold"
              || (tagName =? "b") || (tagName =? "strong") then
        "**" ++ self el ++ "**"
      else if contains classes "ltx_font_italic"
              || (tagName =? "i") || (tagName =? "em") then
        "*" ++ self el ++ "*"
      else if tagName =? "code" then
        "`" ++ textContent el ++ "`"
      else
        self el
  end.

(** [processInlineContent]: text, math, citations, references and the
    rest of the running text under [element]. *)
Fixpoint processInlineContent (element : Node) : string :=
  match element with
  | Element _ _ _ cs => appendAll (map (inlineNode processInlineContent) cs)
  | _ => ""
  end.

(* ================================================================== *)
(** * Blocks *)
(* ================================================================== *)

(** The tag that [processEquation] shows: the trimmed text of the tag
    element, without its surrounding parentheses. *)
Definition equationTag (element : Node) : string :=
  let tag := match querySelector element (AnyOf [byClass "ltx_tag"]) with
             | Some tagEl => trim (textContent tagEl)
             | None => ""
             end in
  stripParens tag.

(** [processEquation]: a display block, with the equation tag if any. *)
Definition processEquation (element : Node) : string :=
  match querySelector element (AnyOf [byTag "math"]) with
  | Some math =>
      let alttext := orElse (getAttribute math "alttext") "" in
      let tag := equationTag element in
      LF ++ "$$" ++ LF ++ alttext ++ LF ++ "$$"
         ++ (if nonEmpty tag then " (" ++ tag ++ ")" else "") ++ LF
  | None => ""
  end.

(** [processFigure]: the image line, then the caption in italics. *)
Definition processFigure (figure : Node) : string :=
  let id := orElse (getAttribute figure "id") "" in
  let img := querySelector figure (AnyOf [byTag "img"]) in
  let caption := querySelector figure (AnyOf [byTag "figcaption"]) in
  let md := LF in
  let md :=
    match img with
    | Some img =>
        let src := orElse (getAttribute img "src") "" in
        let alt := orElse (getAttribute img "alt") "Figure" in
        let fullSrc := if startsWith src "/"
                       then "https://ar5iv.labs.arxiv.org" ++ src else src in
        md ++ "![" ++ alt ++ "](" ++ fullSrc ++ ")" ++ LF
    | None => md
    end in
  let md :=
    match caption with
    | Some caption =>
        let captionText := processInlineContent caption in
        md ++ LF ++ "*" ++ trim captionText ++ "*" ++ LF
    | None => md
    end in
  md ++ LF.

(** The text of one table cell:
    [processInlineContent(cell).replace(/\|/g, '\\|').replace(/\n/g, ' ').trim()]. *)
Definition cellText (cell : Node) : string :=
  trim (replaceAll (ascii_of_nat 10) " "
          (replaceAll "|"%char "\|" (processInlineContent cell))).

Definition rowCells (row : Node) : list string :=
  map cellText (querySelectorAll row (AnyOf [byTag "td"; byTag "th"])).

Definition rowLine (cellTexts : list string) : string :=
  "| " ++ join " | " cellTexts ++ " |" ++ LF.

Definition separatorLine (cellTexts : list string) : string :=
  "| " ++ join " | " (map (fun _ => "---") cellTexts) ++ " |" ++ LF.

(** The body of [rows.forEach]; the state is [md] and [isFirstRow]. *)
Fixpoint tableRows (rows : list Node) (md : string) (isFirstRow : bool)
  : string :=
  match rows with
  | [] => md
  | row :: rest =>
      let cellTexts := rowCells row in
      let md := md ++ rowLine cellTexts in
      if isFirstRow
      then tableRows rest (md ++ separatorLine cellTexts) false
      else tableRows rest md isFirstRow
  end.

(** [processTable]: a pipe table, the first row taken as the header. *)
Definition processTable (table : Node) : string :=
  let rows := querySelectorAll table (AnyOf [byTag "tr"]) in
  match rows with
  | [] => ""
  | _ => tableRows rows LF true ++ LF
  end.

(** One turn of the loop of [processParagraph] over [para.children], the
    element children: a child node that is no element gives nothing. *)
Definition paragraphChild (child : Node) : string :=
  match child with
  | Element tagName classes _ _ =>
      if (tagName =? "P") && contains classes "ltx_p" then
        processInlineContent child ++ LF ++ LF
      else if tagName =? "TABLE" then
        if contains classes "ltx_equation" || contains classes "ltx_eqn_table"
        then processEquation child
        else if contains classes "ltx_tabular" then processTable child
        else ""
      else if (tagName =? "FIGURE") && contains classes "ltx_figure" then
        processFigure child
      else ""
  | _ => ""
  end.

(** [processParagraph]: the structured children; when they give nothing,
    the whole container as inline content. *)
Definition processParagraph (para : Node) : string :=
  let md := appendAll (map paragraphChild (childNodesOf para)) in
  if negb (nonEmpty md)
  then processInlineContent para ++ LF ++ LF
  else md.

(* ================================================================== *)
(** * Sections *)
(* ================================================================== *)

Definition isHeading (tagName : string) : bool :=
  (tagName =? "H1") || (tagName =? "H2") || (tagName =? "H3")
  || (tagName =? "H4") || (tagName =? "H5") || (tagName =? "H6").

(** One turn of the loop of [processSectionContent] over
    [section.children], the element children: a child node that is no
    element gives nothing; [self] is [processSectionContent] itself. *)
Definition sectionChild (self : Node -> nat -> string) (level : nat)
           (child : Node) : string :=
  match child with
  | Element tagName classes _ _ =>
      if isHeading tagName then
        if contains classes "ltx_title" then
          let titleText := trim (processInlineContent child) in
          repeat "#" level ++ " " ++ titleText ++ LF ++ LF
        else ""
      else if contains classes "ltx_para" then
        processParagraph child
      else if contains classes "ltx_subsection" then
        self child (level + 1)
      else if contains classes "ltx_subsubsection" then
        self child (level + 2)
      else if (tagName =? "FIGURE") && contains classes "ltx_figure" then
        processFigure child
      else if tagName =? "TABLE" then
        if contains classes "ltx_equation" || contains classes "ltx_eqn_table"
        then processEquation child
        else if contains classes "ltx_tabular" then processTable child
        else ""
      else if contains classes "ltx_theorem" || contains classes "ltx_proof" then
        let title := match querySelector child (AnyOf [byClass "ltx_title"]) with
                     | Some titleEl => trim (processInlineContent titleEl)
                     | None => ""
                     end in
        (if nonEmpty title then LF ++ "**" ++ title ++ "**" ++ LF ++ LF else "")
        ++ appendAll (map processParagraph
                          (querySelectorAll child (AnyOf [byClass "ltx_para"])))
      else if (tagName =? "DIV") && contains classes "ltx_logical-block" then
        self child level
      else ""
  | _ => ""
  end.

(** [processSectionContent(section, level)]. *)
Fixpoint processSectionContent (section : Node) (level : nat) {struct section}
  : string :=
  match section with
  | Element _ _ _ cs =>
      appendAll (map (sectionChild processSectionContent level) cs)
  | _ => ""
  end.

(* ================================================================== *)
(** * Regions of the document *)
(* ================================================================== *)

Definition extractTitle (doc : Document) : string :=
  match docQuerySelector doc (AnyOf [byTagClass "h1" "ltx_title_document"]) with
  | Some titleEl => trim (processInlineContent titleEl)
  | None => ""
  end.

Definition extractAuthors (doc : Document) : string :=
  match docQuerySelector doc (AnyOf [byClass "ltx_authors"]) with
  | Some authorsEl =>
      collapseSpaces false (trim (processInlineContent authorsEl))
  | None => ""
  end.

Definition extractAbstract (doc : Document) : string :=
  match docQuerySelector doc (AnyOf [byClass "ltx_abstract"]) with
  | Some abstractEl =>
      match querySelector abstractEl (AnyOf [byTagClass "p" "ltx_p"]) with
      | Some pEl => trim (processInlineContent pEl)
      | None => ""
      end
  | None => ""
  end.

(** The selectors ['article.ltx_document > section.ltx_section'] and
    ['article.ltx_document > section.ltx_appendix']. *)
Definition bodySections : Selector :=
  ChildOf (byTagClass "article" "ltx_document") (byTagClass "section" "ltx_section").
Definition appendixSections : Selector :=
  ChildOf (byTagClass "article" "ltx_document") (byTagClass "section" "ltx_appendix").

Definition extractBody (doc : Document) : string :=
  appendAll (map (fun section => processSectionContent section 2)
                 (docQuerySelectorAll doc bodySections)).

Definition extractAppendix (doc : Document) : string :=
  appendAll (map (fun appendix => processSectionContent appendix 2)
                 (docQuerySelectorAll doc appendixSections)).

(** One bibliography entry of [extractReferences]. *)
Definition referenceItem (item : Node) : string :=
  let tagEl :=
    match querySelector item (AnyOf [byTagClass "span" "ltx_tag_bibitem"]) with
    | Some e => Some e
    | None => querySelector item (AnyOf [byTagClass "span" "ltx_bibtag"])
    end in
  let tag := match tagEl with
             | Some e => trim (textContent e)
             | None => ""
             end in
  let tag := stripBrackets tag in
  let blockTexts :=
    filter nonEmpty
           (map (fun b => trim (processInlineContent b))
                (querySelectorAll item (AnyOf [byTagClass "span" "ltx_bibblock"]))) in
  if nonEmpty tag
  then "[" ++ tag ++ "] " ++ join " " blockTexts ++ LF ++ LF
  else join " " blockTexts ++ LF ++ LF.

Definition extractReferences (doc : Document) : string :=
  match docQuerySelector doc (AnyOf [byTagClass "section" "ltx_bibliography"]) with
  | None => ""
  | Some bibSection =>
      let md := "## References" ++ LF ++ LF in
      match querySelector bibSection (AnyOf [byTagClass "ul" "ltx_biblist"]) with
      | None => md
      | Some bibList =>
          md ++ appendAll
                  (map referenceItem
                       (querySelectorAll bibList (AnyOf [byTagClass "li" "ltx_bibitem"])))
      end
  end.

(* ================================================================== *)
(** * Assembly *)
(* ================================================================== *)

(** Lines 386 to 433 of [convertAr5ivToMarkdown]: the Markdown of the
    parsed document for the requested [part]; the [switch] falls to the
    [all] case for every selector it does not name. *)
Definition assembleMarkdown (doc : Document) (part : string) : string :=
  let md := "" in
  let title := extractTitle doc in
  let authors := extractAuthors doc in
  let md := if nonEmpty title then md ++ "# " ++ title ++ LF ++ LF else md in
  let md := if nonEmpty authors && negb (part =? "appendix")
            then md ++ "**Authors:** " ++ authors ++ LF ++ LF else md in
  if part =? "abstract" then
    md ++ "## Abstract" ++ LF ++ LF ++ extractAbstract doc ++ LF
  else if part =? "body" then
    let abstractForBody := extractAbstract doc in
    let md := if nonEmpty abstractForBody
              then md ++ "## Abstract" ++ LF ++ LF ++ abstractForBody ++ LF ++ LF
              else md in
    md ++ extractBody doc
  else if part =? "appendix" then
    md ++ extractAppendix doc
  else
    let abstract := extractAbstract doc in
    let md := if nonEmpty abstract
              then md ++ "## Abstract" ++ LF ++ LF ++ abstract ++ LF ++ LF
              else md in
    let md := md ++ extractBody doc in
    let md := md ++ extractReferences doc in
    let appendix := extractAppendix doc in
    if nonEmpty appendix
    then md ++ "---" ++ LF ++ LF ++ "# Appendix" ++ LF ++ LF ++ appendix
    else md.

(* ================================================================== *)
(** * Fetching the page *)
(* ================================================================== *)

Inductive RedirectMode : Type := follow | manual.

Record Request : Type :=
  { url : string; headers : list (string * string); redirect : RedirectMode }.

(** A response: its [status] and what [text()] gives. *)
Record Response : Type := { status : nat; text : string }.

(** [response.ok]: a status from 200 to 299. *)
Definition ok (r : Response) : bool :=
  (200 <=? status r)%nat && (status r <=? 299)%nat.

(** The outside world: what [fetch] answers to a request, given the
    requests issued before; [inr] is a rejected promise and its message. *)
Definition Network : Type := list Request -> Request -> Response + string.

(** An [async] computation: it reads and extends the log of the requests
    issued so far, and returns a value or throws. *)
Inductive Outcome (A : Type) : Type :=
| Returned (value : A)
| Thrown (message : string).
Arguments Returned {A} value.
Arguments Thrown {A} message.

Definition Async (A : Type) : Type := list Request -> Outcome A * list Request.

Definition ret {A} (a : A) : Async A := fun log => (Returned a, log).
Definition throw {A} (message : string) : Async A :=
  fun log => (Thrown message, log).
Definition bind {A B} (m : Async A) (k : A -> Async B) : Async B :=
  fun log =>
    match m log with
    | (Returned a, log') => k a log'
    | (Thrown message, log') => (Thrown message, log')
    end.

Notation "x <- m ;; k" := (bind m (fun x => k))
  (at level 61, m at next level, right associativity).

Definition AR5IV_BASE : string := "https://ar5iv.labs.arxiv.org/html/".
Definition ARXIV_HTML_BASE : string := "https://arxiv.org/html/".

Definition userAgent : list (string * string) :=
  [("User-Agent", "Mozilla/5.0 (Macintosh; Intel Mac OS X 10_15_7)")].

Definition ar5ivRequest (arxivId : string) : Request :=
  {| url := AR5IV_BASE ++ arxivId; headers := userAgent; redirect := manual |}.

Definition arxivRequest (arxivId : string) : Request :=
  {| url := ARXIV_HTML_BASE ++ arxivId; headers := userAgent; redirect := follow |}.

Definition notAvailable (status : nat) : string :=
  "Paper HTML not available: ar5iv redirected, arxiv.org/html returned "
  ++ ofNat status.

Definition failedToFetch (ar5ivUrl : string) (status : nat) : string :=
  "Failed to fetch " ++ ar5ivUrl ++ ": " ++ ofNat status.

Section Pipeline.

Variable net : Network.

(** [await fetch(url, options)]. *)
Definition fetch (req : Request) : Async Response :=
  fun log =>
    match net log req with
    | inl response => (Returned response, log ++ [req])%list
    | inr message => (Thrown message, log ++ [req])%list
    end.

(** [fetchAr5iv]: the ar5iv page, or the arxiv.org page when ar5iv
    answers 307. *)
Definition fetchAr5iv (arxivId : string) : Async string :=
  ar5ivResponse <- fetch (ar5ivRequest arxivId) ;;
  if (status ar5ivResponse =? 307)%nat then
    arxivResponse <- fetch (arxivRequest arxivId) ;;
    if negb (ok arxivResponse)
    then throw (notAvailable (status arxivResponse))
    else ret (text arxivResponse)
  else if negb (ok ar5ivResponse)
  then throw (failedToFetch (url (ar5ivRequest arxivId)) (status ar5ivResponse))
  else ret (text ar5ivResponse).

(** [new JSDOM(html).window.document]: the parser is JSDOM's. *)
Variable parseHTML : string -> Document.

(** [convertAr5ivToMarkdown(arxivId, part)]. *)
Definition convertAr5ivToMarkdown (arxivId part : string) : Async string :=
  html <- fetchAr5iv arxivId ;;
  let doc := parseHTML html in
  ret (assembleMarkdown doc part).

End Pipeline.

(** The requests of a log that went to the mirror at [base]. *)
Definition contacts (base : string) (log : list Request) : nat :=
  List.length (filter (fun r => startsWith (url r) base) log).

(* ================================================================== *)
(** * Sample markup *)
(* ================================================================== *)

Module Samples.

Definition elem (tag : string) (classes : list string) (cs : list Node) : Node :=
  Element tag classes [] cs.

(** A page with every region: title, authors, abstract, one section
    with nested subsections, a bibliography and an appendix. *)
Definition paper : Document :=
  {| documentNodes :=
      [elem "HTML" []
        [elem "BODY" []
          [elem "ARTICLE" ["ltx_document"]
            [elem "H1" ["ltx_title"; "ltx_title_document"] [TextNode "T"];
             elem "DIV" ["ltx_authors"] [TextNode " A   B "];
             elem "DIV" ["ltx_abstract"]
               [elem "P" ["ltx_p"] [TextNode "abs"]];
             elem "SECTION" ["ltx_section"]
               [elem "H2" ["ltx_title"] [TextNode "Intro"];
                elem "DIV" ["ltx_para"]
                  [elem "P" ["ltx_p"] [TextNode "hello"]];
                elem "SECTION" ["ltx_subsection"]
                  [elem "H3" ["ltx_title"] [TextNode "Sub"]]];
             elem "SECTION" ["ltx_bibliography"]
               [elem "UL" ["ltx_biblist"]
                 [elem "LI" ["ltx_bibitem"]
                   [elem "SPAN" ["ltx_tag"; "ltx_tag_bibitem"] [TextNode "[1]"];
                    elem "SPAN" ["ltx_bibblock"] [TextNode "Someone."]]]];
             elem "SECTION" ["ltx_appendix"]
               [elem "H2" ["ltx_title"] [TextNode "App"]]]]]] |}.

(** A page with a title and authors only. *)
Definition bare : Document :=
  {| documentNodes :=
      [elem "ARTICLE" ["ltx_document"]
        [elem "H1" ["ltx_title_document"] [TextNode "T"];
         elem "DIV" ["ltx_authors"] [TextNode "A"]]] |}.

(** A section with a subsection, a part below the subsection, and a
    logical block whose content stays at the section's depth. *)
Definition part : Node :=
  elem "SECTION" ["ltx_subsubsection"] [elem "H4" ["ltx_title"] [TextNode "Part"]].
Definition subsection : Node :=
  elem "SECTION" ["ltx_subsection"] [elem "H3" ["ltx_title"] [TextNode "Sub"]; part].
Definition group : Node :=
  elem "DIV" ["ltx_logical-block"] [elem "H5" ["ltx_title"] [TextNode "Grouped"]].
Definition section : Node :=
  elem "SECTION" ["ltx_section"]
    [elem "H2" ["ltx_title"] [TextNode "Intro"]; subsection; group].

(** A citation with two pointers, one in each of the two shapes. *)
Definition citation : Node :=
  elem "CITE" ["ltx_cite"; "ltx_citemacro_cite"]
    [TextNode "[";
     elem "A" ["ltx_ref"] [TextNode "12"];
     TextNode ", ";
     elem "SPAN" ["ltx_ref"] [TextNode "7"];
     TextNode "]"].

(** A grid of two rows and two columns. *)
Definition grid : Node :=
  elem "TABLE" ["ltx_tabular"]
    [elem "TBODY" []
      [elem "TR" [] [elem "TH" [] [TextNode "A"]; elem "TH" [] [TextNode "B"]];
       elem "TR" [] [elem "TD" [] [TextNode "1"]; elem "TD" [] [TextNode "2"]]]].

(** An equation table: the formula [x=y] tagged [(3)]. *)
Definition equation : Node :=
  elem "TABLE" ["ltx_equation"; "ltx_eqn_table"]
    [elem "TR" []
      [elem "TD" [] [Element "math" ["ltx_Math"] [("alttext", "x=y")] []];
       elem "TD" [] [elem "SPAN" ["ltx_tag"; "ltx_tag_equation"] [TextNode "(3)"]]]].

(** Two states of the mirrors that serve the same page: ar5iv has it,
    or ar5iv answers 307 and arxiv.org has it. *)
Definition page : string := "<html><body><article class=ltx_document></article></body></html>".

Definition served (log : list Request) (req : Request) : Response + string :=
  inl {| status := 200; text := page |}.

Definition redirected (log : list Request) (req : Request) : Response + string :=
  if startsWith (url req) AR5IV_BASE
  then inl {| status := 307; text := "" |}
  else inl {| status := 200; text := page |}.

(** ar5iv answers 307 and arxiv.org does not have the page either. *)
Definition missing (log : list Request) (req : Request) : Response + string :=
  if startsWith (url req) AR5IV_BASE
  then inl {| status := 307; text := "" |}
  else inl {| status := 404; text := "Not Found" |}.

End Samples.

(* ================================================================== *)
(** * Notions used in the statements *)
(* ================================================================== *)

(** The line that carries the title, and the one that carries the authors;
    an empty title or author list gives no line. *)
Definition titleLine (doc : Document) : string :=
  if nonEmpty (extractTitle doc)
  then "# " ++ extractTitle doc ++ LF ++ LF else "".

Definition authorsLine (doc : Document) : string :=
  if nonEmpty (extractAuthors doc)
  then "**Authors:** " ++ extractAuthors doc ++ LF ++ LF else "".

(** The abstract under its heading, as the [body] and [all] levels have
    it: nothing when the abstract is empty. *)
Definition abstractBlock (doc : Document) : string :=
  if nonEmpty (extractAbstract doc)
  then "## Abstract" ++ LF ++ LF ++ extractAbstract doc ++ LF ++ LF else "".

(** The appendix under a rule and its heading, as the [all] level has it. *)
Definition appendixBlock (doc : Document) : string :=
  if nonEmpty (extractAppendix doc)
  then "---" ++ LF ++ LF ++ "# Appendix" ++ LF ++ LF ++ extractAppendix doc
  else "".

(** An element child that [processInlineContent] takes for a citation: it
    carries the citation class and was not taken for a formula before. *)
Definition isCitation (node : Node) : bool :=
  match node with
  | Element tag classes _ _ =>
      negb ((toLowerCase tag =? "math") || contains classes "ltx_Math")
      && contains classes "ltx_cite"
  | _ => false
  end.

(** A reference pointer, in either shape: an anchor or a span that
    carries the reference class. *)
Definition isPointer (node : Node) : bool :=
  match node with
  | Element tag classes _ _ =>
      ((toLowerCase tag =? "a") || (toLowerCase tag =? "span"))
      && contains classes "ltx_ref"
  | _ => false
  end.

(** The text of a pointer as the citation shows it, and the pointers
    that have one. *)
Definition visibleText (r : Node) : string := trim (textContent r).
Definition resolvable (r : Node) : bool := nonEmpty (visibleText r).

(** Whether the character [c] occurs in [s]. *)
Fixpoint occurs (c : ascii) (s : string) : bool :=
  match s with
  | EmptyString => false
  | String d r => Ascii.eqb d c || occurs c r
  end.

(** Whether every pipe of [s] stands right after a backslash;
    [afterBackslash] tells whether the character before [s] is one. *)
Fixpoint pipesEscaped (afterBackslash : bool) (s : string) : bool :=
  match s with
  | EmptyString => true
  | String c r =>
      (if Ascii.eqb c "|" then afterBackslash else true)
      && pipesEscaped (Ascii.eqb c "\") r
  end.

Definition lineFeed : ascii := ascii_of_nat 10.

(** The shapes that [processParagraph] renders as structure: an inline
    paragraph, an equation table, a tabular table, a figure. *)
Definition isStructured (child : Node) : bool :=
  match child with
  | Element tagName classes _ _ =>
      ((tagName =? "P") && contains classes "ltx_p")
      || ((tagName =? "TABLE")
          && (contains classes "ltx_equation" || contains classes "ltx_eqn_table"
              || contains classes "ltx_tabular"))
      || ((tagName =? "FIGURE") && contains classes "ltx_figure")
  | _ => false
  end.





(* ================================================================== *)
(** * The command line and the server tool *)
(* ================================================================== *)

Definition doubleQuote : string := String (ascii_of_nat 34) "".

(** The text that [main] prints for [--help]. *)
Definition usage : string :=
  LF
  ++ "Usage: node ar5iv-to-md.mjs <arxiv-id> [part]" ++ LF
  ++ LF
  ++ "Arguments:" ++ LF
  ++ "  arxiv-id    The arXiv paper ID (e.g., 2512.16906, 2512.16906v1)" ++ LF
  ++ "  part        Which part to extract (default: all)" ++ LF
  ++ "              - all:      Full paper (title + authors + abstract + body + references + appendix)" ++ LF
  ++ "              - abstract: Title + authors + abstract only" ++ LF
  ++ "              - body:     Title + authors + abstract + main sections (no references/appendix)" ++ LF
  ++ "              - appendix: Title + appendix only" ++ LF
  ++ LF
  ++ "Examples:" ++ LF
  ++ "  node ar5iv-to-md.mjs 2512.16906" ++ LF
  ++ "  node ar5iv-to-md.mjs 2512.16906v1 abstract" ++ LF
  ++ "  node ar5iv-to-md.mjs 2512.16906 body" ++ LF.

Definition validParts : list string := ["all"; "abstract"; "body"; "appendix"].

(** [Array.prototype.includes] on an array of strings. *)
Definition includes (l : list string) (x : string) : bool :=
  existsb (String.eqb x) l.

(** A line written by [console.log] or by [console.error]. *)
Inductive ConsoleLine : Type :=
| Logged (line : string)
| Complained (line : string).

(** [try { body } catch (error) { handler(error.message) }]. *)
Definition tryCatch {A} (body : Async A) (handler : string -> Async A) : Async A :=
  fun log =>
    match body log with
    | (Returned a, log') => (Returned a, log')
    | (Thrown message, log') => handler message log'
    end.

(** The result of a server tool: the text of its one content item and
    the error flag. *)
Record ToolResult : Type := { content : string; isError : bool }.

(** The case folding of a regular expression with the [i] flag, on
    patterns of ASCII characters: a letter from [a] to [z] compares as its
    capital, and a code unit from 128 on never compares equal to an ASCII
    one. *)
Definition canonicalize (c : ascii) : ascii :=
  let n := nat_of_ascii c in
  if (97 <=? n)%nat && (n <=? 122)%nat then ascii_of_nat (n - 32) else c.

(** What is left of [s] after [pattern] at its start, letter case apart. *)
Fixpoint dropPrefixIgnoreCase (pattern s : string) : option string :=
  match pattern with
  | EmptyString => Some s
  | String p pattern' =>
      match s with
      | EmptyString => None
      | String c s' =>
          if Ascii.eqb (canonicalize c) (canonicalize p)
          then dropPrefixIgnoreCase pattern' s' else None
      end
  end.

(** [arxivId.replace(/^arxiv:/i, '')]. *)
Definition normalizeId (arxivId : string) : string :=
  match dropPrefixIgnoreCase "arxiv:" arxivId with
  | Some rest => rest
  | None => arxivId
  end.

Section Callers.

Variable net : Network.
Variable parseHTML : string -> Document.

(** [main] of the converter, on [process.argv.slice(2)]: the lines it
    writes and the code it gives to [process.exit], [None] when it returns
    without exiting. *)
Definition main (args : list string) : Async (list ConsoleLine * option nat) :=
  if (List.length args =? 0)%nat || includes args "--help" || includes args "-h"
  then ret ([Logged usage], Some 0)
  else
    let arxivId := nth 0 args "" in
    let part := orElse (nth_error args 1) "all" in
    if negb (includes validParts part) then
      ret ([Complained ("Error: Invalid part " ++ doubleQuote ++ part ++ doubleQuote
                          ++ ". Must be one of: " ++ join ", " validParts)],
           Some 1)
    else
      tryCatch
        (markdown <- convertAr5ivToMarkdown net parseHTML arxivId part ;;
         ret ([Logged markdown], None))
        (fun message => ret ([Complained ("Error: " ++ message)], Some 1)).

(** The handler of the [extract-paper] tool; [level] is what the schema
    hands over, [body] when the caller gave none. *)
Definition extractPaper (arxivId level : string) : Async ToolResult :=
  tryCatch
    (let normalizedId := normalizeId arxivId in
     markdown <- convertAr5ivToMarkdown net parseHTML normalizedId level ;;
     ret {| content := markdown; isError := false |})
    (fun message =>
       ret {| content := "Error fetching paper: " ++ message; isError := true |}).

End Callers.

(* ================================================================== *)
(** * The search: [arxiv-search.mjs] and the resolve-paper-id tool *)
(* ================================================================== *)

Module ArxivSearch.

Definition ARXIV_API : string := "https://export.arxiv.org/api/query".
Definition MAX_RESULTS : nat := 5.

(** ** Regular expressions

    A regular expression of the source is the function that matches it
    at the start of a string; [firstMatch] and [matchAll] try the
    positions from left to right as [match] and the [g] flag do. *)

(** What is left of [s] after [literal] at its start. *)
Fixpoint dropPrefix (literal s : string) : option string :=
  match literal with
  | EmptyString => Some s
  | String l literal' =>
      match s with
      | EmptyString => None
      | String c s' => if Ascii.eqb c l then dropPrefix literal' s' else None
      end
  end.

(** The text before and the text after the first [literal] in [s]: a
    lazy [[\s\S]*?] followed by the literal. *)
Fixpoint find (literal s : string) : option (string * string) :=
  match dropPrefix literal s with
  | Some rest => Some (EmptyString, rest)
  | None =>
      match s with
      | EmptyString => None
      | String c r =>
          match find literal r with
          | Some (before, after) => Some (String c before, after)
          | None => None
          end
      end
  end.

(** The leading characters of [s] that satisfy [p], and the rest: a
    greedy class with a star. *)
Fixpoint span (p : ascii -> bool) (s : string) : string * string :=
  match s with
  | EmptyString => (EmptyString, EmptyString)
  | String c r =>
      if p c then let (run, rest) := span p r in (String c run, rest)
      else (EmptyString, s)
  end.

(** The match at the leftmost position that has one. *)
Fixpoint firstMatch {A} (matchAt : string -> option A) (s : string) : option A :=
  match matchAt s with
  | Some x => Some x
  | None =>
      match s with
      | EmptyString => None
      | String _ r => firstMatch matchAt r
      end
  end.

(** All the matches from left to right, none overlapping another:
    [matchAt] gives a match and its length, and [skip] counts the
    characters of the last match still to pass. *)
Fixpoint matchAll {A} (matchAt : string -> option (A * nat)) (skip : nat)
         (s : string) : list A :=
  match s with
  | EmptyString => []
  | String _ r =>
      match skip with
      | S k => matchAll matchAt k r
      | O =>
          match matchAt s with
          | Some (x, n) => x :: matchAll matchAt (n - 1) r
          | None => matchAll matchAt 0 r
          end
      end
  end.

Definition isDigit (c : ascii) : bool :=
  let n := nat_of_ascii c in (48 <=? n)%nat && (n <=? 57)%nat.

Definition allDigits (s : string) : bool :=
  forallb isDigit (list_ascii_of_string s).

(** [/<entry>[\s\S]*?<\/entry>/] at the start of [s]. *)
Definition entryAt (s : string) : option (string * nat) :=
  match dropPrefix "<entry>" s with
  | Some rest =>
      match find "</entry>" rest with
      | Some (body, _) =>
          Some ("<entry>" ++ body ++ "</entry>", 7 + String.length body + 8)
      | None => None
      end
  | None => None
  end.

(** [xml.match(/<entry>[\s\S]*?<\/entry>/g) || []]. *)
Definition matchEntries (xml : string) : list string := matchAll entryAt 0 xml.

(** The pattern of [extractTag] at the start of [s], for a tag name
    without special characters as all the callers pass: the name, what
    precedes the first [>], and the text up to the first closing tag. *)
Definition tagAt (tag s : string) : option string :=
  match dropPrefix ("<" ++ tag) s with
  | Some afterName =>
      match find ">" afterName with
      | Some (_, inside) =>
          match find ("</" ++ tag ++ ">") inside with
          | Some (body, _) => Some body
          | None => None
          end
      | None => None
      end
  | None => None
  end.

(** [extractTag(xml, tag)]: [match?.[1] || null]. *)
Definition extractTag (xml tag : string) : option string :=
  match firstMatch (tagAt tag) xml with
  | Some body => if nonEmpty body then Some body else None
  | None => None
  end.

(** Exactly [n] digits at the start of [s], and the rest. *)
Fixpoint takeDigits (n : nat) (s : string) : option (string * string) :=
  match n with
  | O => Some (EmptyString, s)
  | S k =>
      match s with
      | String c r =>
          if isDigit c
          then match takeDigits k r with
               | Some (ds, rest) => Some (String c ds, rest)
               | None => None
               end
          else None
      | EmptyString => None
      end
  end.

(** [(v\d+)?$] at the start of [s]. *)
Definition versionThenEnd (s : string) : bool :=
  match s with
  | EmptyString => true
  | String c ds => Ascii.eqb c "v" && nonEmpty ds && allDigits ds
  end.

(** [/(\d{4}\.\d{4,5})(v\d+)?$/] at the start of [s]: the first group. *)
Definition idAt (s : string) : option string :=
  match takeDigits 4 s with
  | Some (year_month, String "." r) =>
      let four :=
        match takeDigits 4 r with
        | Some (number, rest) =>
            if versionThenEnd rest then Some (year_month ++ "." ++ number) else None
        | None => None
        end in
      match takeDigits 5 r with
      | Some (number, rest) =>
          if versionThenEnd rest then Some (year_month ++ "." ++ number) else four
      | None => four
      end
  | _ => None
  end.

(** [id.match(/(\d{4}\.\d{4,5})(v\d+)?$/)?.[1] || id]. *)
Definition paperId (id : string) : string :=
  match firstMatch idAt id with
  | Some group => group
  | None => id
  end.

(** [/<author>\s*<name>([^<]+)<\/name>\s*<\/author>/] at the start of
    [s]: the name and the length of the match. *)
Definition authorAt (s : string) : option (string * nat) :=
  match dropPrefix "<author>" s with
  | Some r1 =>
      match dropPrefix "<name>" (snd (span isSpace r1)) with
      | Some r2 =>
          let (name, r3) := span (fun c => negb (Ascii.eqb c "<")) r2 in
          if nonEmpty name then
            match dropPrefix "</name>" r3 with
            | Some r4 =>
                match dropPrefix "</author>" (snd (span isSpace r4)) with
                | Some r5 => Some (name, String.length s - String.length r5)
                | None => None
                end
            | None => None
            end
          else None
      | None => None
      end
  | None => None
  end.

(** The end of the category pattern at the start of [s]: [term=], a
    double quote, at least one character that is no double quote, as many
    as there are, and a double quote. *)
Definition termAt (s : string) : option string :=
  match dropPrefix ("term=" ++ doubleQuote) s with
  | Some r =>
      let (value, rest) := span (fun c => negb (Ascii.eqb c (ascii_of_nat 34))) r in
      if nonEmpty value
      then match rest with
           | String _ _ => Some value
           | EmptyString => None
           end
      else None
  | None => None
  end.

(** [[^>]*] and the end of the pattern at the start of [region]: the
    greedy class gives back one character at a time, so the last place
    before the first [>] where the end of the pattern matches is taken. *)
Fixpoint lastTerm (region : string) : option string :=
  match region with
  | EmptyString => None
  | String c r =>
      match (if Ascii.eqb c ">" then None else lastTerm r) with
      | Some value => Some value
      | None => termAt region
      end
  end.

(** The category pattern at the start of [s]: [<arxiv:primary_category],
    [[^>]*] and the [term] attribute with its value as the group. *)
Definition categoryAt (s : string) : option string :=
  match dropPrefix "<arxiv:primary_category" s with
  | Some region => lastTerm region
  | None => None
  end.

(** [?.replace(/\s+/g, ' ').trim()] on a field that may be [null]. *)
Definition tidy (field : option string) : option string :=
  match field with
  | Some s => Some (trim (collapseSpaces false s))
  | None => None
  end.

(** [value || null] for a string, [undefined] or [null]. *)
Definition orNull (field : option string) : option string :=
  match field with
  | Some s => if nonEmpty s then Some s else None
  | None => None
  end.

(** ** Results *)

(** The year of a result: [null], [NaN] or a number. *)
Inductive Year : Type :=
| NoYear
| NotANumber
| FullYear (y : Z).

(** A result of [parseResults]; [None] is [undefined] for [title] and
    [abstract], and [null] for the other fields. *)
Record Paper : Type :=
  { title : option string;
    arxivId : string;
    authors : list string;
    year : Year;
    category : option string;
    comment : option string;
    journalRef : option string;
    doi : option string;
    abstract : option string }.

(** The message of the [TypeError] that V8 throws for [null.match]. *)
Definition nullMatchMessage : string :=
  "Cannot read properties of null (reading 'match')".

(** [array.map(f)] for an [f] that may throw. *)
Fixpoint mapOutcome {A B} (f : A -> Outcome B) (l : list A) : Outcome (list B) :=
  match l with
  | [] => Returned []
  | x :: rest =>
      match f x with
      | Thrown message => Thrown message
      | Returned y =>
          match mapOutcome f rest with
          | Thrown message => Thrown message
          | Returned ys => Returned (y :: ys)
          end
      end
  end.

(** A template literal's text for a string that may be [undefined]. *)
Definition showText (field : option string) : string :=
  match field with
  | Some s => s
  | None => "undefined"
  end.

Definition showYear (y : Year) : string :=
  match y with
  | NoYear => "null"
  | NotANumber => "NaN"
  | FullYear n => NilZero.string_of_int (Z.to_int n)
  end.

Definition truthy (field : option string) : bool :=
  match field with
  | Some s => nonEmpty s
  | None => false
  end.

(** The strings of [[r.journalRef, r.doi].filter(Boolean)]. *)
Definition present (fields : list (option string)) : list string :=
  flat_map (fun field => match orNull field with
                         | Some s => [s]
                         | None => []
                         end) fields.

(** The lines of one result in [formatOutput]. *)
Definition resultLines (r : Paper) : list string :=
  let lines :=
    ["----------";
     "- Title: " ++ showText (title r);
     "- Arxiv ID: " ++ arxivId r;
     "- Authors: " ++ join ", " (authors r);
     "- Year: " ++ showYear (year r);
     "- Category: " ++ orElse (category r) "N/A"] in
  let lines := if truthy (comment r)
               then List.app lines ["- Comment: " ++ showText (comment r)]
               else lines in
  let lines :=
    if truthy (journalRef r) || truthy (doi r) then
      let journalDoi := join " / " (present [journalRef r; doi r]) in
      List.app lines ["- Journal/DOI: " ++ journalDoi]
    else lines in
  List.app lines ["- Abstract: " ++ showText (abstract r)].

(** [formatOutput(results)]. *)
Definition formatOutput (results : list Paper) : string :=
  match results with
  | [] => "No results found."
  | _ =>
      join (LF ++ LF) (map (fun r => join LF (resultLines r)) results)
      ++ LF ++ LF ++ "----------"
  end.

(** ** The query *)

(** [/^(ti|au|abs|co|jr|cat|rn|all|id):/.test(query)]. *)
Definition fieldNames : list string :=
  ["ti"; "au"; "abs"; "co"; "jr"; "cat"; "rn"; "all"; "id"].

Definition hasFieldPrefix (query : string) : bool :=
  existsb (fun name => startsWith query (name ++ ":")) fieldNames.

Definition searchQueryOf (query : string) : string :=
  if hasFieldPrefix query then query else "all:" ++ query.

(** The serialisation of [URLSearchParams]: letters, digits and [*-._]
    stay, a space becomes [+], every other character becomes the bytes of
    its UTF-8 form, each as [%] and two capital hexadecimal digits. *)
Definition isAlphanumeric (c : ascii) : bool :=
  let n := nat_of_ascii c in
  ((48 <=? n)%nat && (n <=? 57)%nat)
  || ((65 <=? n)%nat && (n <=? 90)%nat)
  || ((97 <=? n)%nat && (n <=? 122)%nat).

Definition staysAsItIs (c : ascii) : bool :=
  isAlphanumeric c || Ascii.eqb c "*" || Ascii.eqb c "-"
  || Ascii.eqb c "." || Ascii.eqb c "_".

Definition hexDigit (n : nat) : ascii :=
  if (n <? 10)%nat then ascii_of_nat (48 + n) else ascii_of_nat (55 + n).

Definition percentByte (byte : nat) : string :=
  String "%" (String (hexDigit (byte / 16)) (String (hexDigit (byte mod 16)) "")).

Definition encodeChar (c : ascii) : string :=
  let n := nat_of_ascii c in
  if staysAsItIs c then String c ""
  else if (n =? 32)%nat then "+"
  else if (n <? 128)%nat then percentByte n
  else percentByte (192 + n / 64) ++ percentByte (128 + n mod 64).

Fixpoint formEncode (s : string) : string :=
  match s with
  | EmptyString => EmptyString
  | String c r => encodeChar c ++ formEncode r
  end.

(** [new URLSearchParams(pairs).toString()]. *)
Definition searchParams (pairs : list (string * string)) : string :=
  join "&" (map (fun kv => formEncode (fst kv) ++ "=" ++ formEncode (snd kv)) pairs).

Definition searchRequest (query : string) : Request :=
  {| url := ARXIV_API ++ "?"
            ++ searchParams [("search_query", searchQueryOf query);
                             ("start", ofNat 0);
                             ("max_results", ofNat MAX_RESULTS);
                             ("sortBy", "relevance");
                             ("sortOrder", "descending")];
     headers := [];
     redirect := follow |}.

Section Search.

Variable net : Network.

(** [new Date(published).getFullYear()]: the year in the local time zone,
    [None] for [NaN]. *)
Variable getFullYear : string -> option Z.

(** The body of the [map] of [parseResults]. *)
Definition parseEntry (entry : string) : Outcome Paper :=
  match extractTag entry "id" with
  | None => Thrown nullMatchMessage
  | Some id =>
      let arxivId := paperId id in
      let authors := matchAll authorAt 0 entry in
      let published := extractTag entry "published" in
      let year := match published with
                  | Some date =>
                      match getFullYear date with
                      | Some y => FullYear y
                      | None => NotANumber
                      end
                  | None => NoYear
                  end in
      let abstract := tidy (extractTag entry "summary") in
      let category := firstMatch categoryAt entry in
      let comment := orNull (tidy (extractTag entry "arxiv:comment")) in
      let journalRef := orNull (tidy (extractTag entry "arxiv:journal_ref")) in
      let doi := orNull (extractTag entry "arxiv:doi") in
      Returned {| title := tidy (extractTag entry "title");
                  arxivId := "arxiv:" ++ arxivId;
                  authors := authors;
                  year := year;
                  category := category;
                  comment := comment;
                  journalRef := journalRef;
                  doi := doi;
                  abstract := abstract |}
  end.

(** [parseResults(xml)]. *)
Definition parseResults (xml : string) : Outcome (list Paper) :=
  mapOutcome parseEntry (matchEntries xml).

(** [searchArxiv(query)]. *)
Definition searchArxiv (query : string) : Async (list Paper) :=
  response <- fetch net (searchRequest query) ;;
  if negb (ok response)
  then throw ("API request failed: " ++ ofNat (status response))
  else
    let xml := text response in
    fun log => (parseResults xml, log).

(** The handler of the [resolve-paper-id] tool. *)
Definition resolvePaperId (query : string) : Async ToolResult :=
  tryCatch
    (results <- searchArxiv query ;;
     let output := formatOutput results in
     ret {| content := output; isError := false |})
    (fun message =>
       ret {| content := "Error searching arXiv: " ++ message; isError := true |}).

End Search.

(** The result of the tool for a search that threw. *)
Definition searchError (message : string) : ToolResult :=
  {| content := "Error searching arXiv: " ++ message; isError := true |}.

(** An entry of the feed, and a feed of one entry. *)
Definition sampleEntry : string :=
  "<entry>" ++ LF
  ++ "  <id>http://arxiv.org/abs/1706.03762v7</id>" ++ LF
  ++ "  <published>2017-06-12T17:57:34Z</published>" ++ LF
  ++ "  <title>Attention Is" ++ LF ++ "  All You Need</title>" ++ LF
  ++ "  <summary>  The dominant sequence transduction models." ++ LF ++ "</summary>" ++ LF
  ++ "  <author>" ++ LF ++ "    <name>Ashish Vaswani</name>" ++ LF ++ "  </author>" ++ LF
  ++ "  <author><name>Noam Shazeer</name></author>" ++ LF
  ++ "  <arxiv:comment xmlns:arxiv=" ++ doubleQuote ++ "http://arxiv.org/schemas/atom"
  ++ doubleQuote ++ ">15 pages</arxiv:comment>" ++ LF
  ++ "  <arxiv:primary_category xmlns:arxiv=" ++ doubleQuote
  ++ "http://arxiv.org/schemas/atom" ++ doubleQuote ++ " term=" ++ doubleQuote
  ++ "cs.CL" ++ doubleQuote ++ " scheme=" ++ doubleQuote
  ++ "http://arxiv.org/schemas/atom" ++ doubleQuote ++ "/>" ++ LF
  ++ "</entry>".

Definition sampleFeed : string :=
  "<feed><title>ArXiv Query</title>" ++ LF ++ sampleEntry ++ LF ++ "</feed>".

(** An entry without an identifier after a good one. *)
Definition brokenFeed : string :=
  "<feed>" ++ sampleEntry ++ "<entry><title>No id</title></entry></feed>".

Definition sampleYear (date : string) : option Z :=
  if startsWith date "2017" then Some 2017%Z else None.

Definition feedServer (feed : string) (log : list Request) (req : Request)
  : Response + string :=
  inl {| status := 200; text := feed |}.

Definition busyServer (log : list Request) (req : Request) : Response + string :=
  inl {| status := 503; text := "" |}.

End ArxivSearch.

(* ================================================================== *)
(** * Further notions used in the statements *)
(* ================================================================== *)

(** An element that [processInlineContent] renders as its children and
    nothing else: none of the tests of its loop takes it. *)
Definition passesThrough (node : Node) : bool :=
  match node with
  | Element tag classes _ _ =>
      let tagName := toLowerCase tag in
      negb ((tagName =? "math") || contains classes "ltx_Math"
            || contains classes "ltx_cite" || contains classes "ltx_ref"
            || contains classes "ltx_note" || (tagName =? "a")
            || (tagName =? "br")
            || contains classes "ltx_font_bold" || (tagName =? "b")
            || (tagName =? "strong")
            || contains classes "ltx_font_italic" || (tagName =? "i")
            || (tagName =? "em") || (tagName =? "code"))
  | _ => true
  end.

(** A subtree of text, comments and such elements only. *)
Fixpoint plainText (node : Node) : bool :=
  match node with
  | Element _ _ _ cs => passesThrough node && forallb plainText cs
  | _ => true
  end.

(** An element child that [processInlineContent] takes for a footnote. *)
Definition isFootnote (node : Node) : bool :=
  match node with
  | Element tag classes _ _ =>
      negb ((toLowerCase tag =? "math") || contains classes "ltx_Math"
            || contains classes "ltx_cite" || contains classes "ltx_ref")
      && contains classes "ltx_note"
  | _ => false
  end.

(** A child that [processParagraph] always renders as something: an
    inline paragraph or a figure. *)
Definition alwaysRendered (child : Node) : bool :=
  match child with
  | Element tagName classes _ _ =>
      ((tagName =? "P") && contains classes "ltx_p")
      || ((tagName =? "FIGURE") && contains classes "ltx_figure")
  | _ => false
  end.

(** Every white space of [s] is one space character, and no two of them
    are adjacent; [afterSpace] tells whether the character before [s] is a
    white space. *)
Fixpoint singleSpaced (afterSpace : bool) (s : string) : bool :=
  match s with
  | EmptyString => true
  | String c r =>
      if isSpace c
      then Ascii.eqb c " " && negb afterSpace && singleSpaced true r
      else singleSpaced false r
  end.

(** The string in capitals, as [canonicalize] folds it. *)
Fixpoint canonical (s : string) : string :=
  match s with
  | EmptyString => EmptyString
  | String c r => String (canonicalize c) (canonical r)
  end.

(** Whether every character of [s] satisfies [p]. *)
Fixpoint allChars (p : ascii -> bool) (s : string) : bool :=
  match s with
  | EmptyString => true
  | String c r => p c && allChars p r
  end.

(** The characters that an encoded parameter is made of: those that stay
    as they are, the plus sign and the percent sign. *)
Definition urlSafe (c : ascii) : bool :=
  ArxivSearch.staysAsItIs c || Ascii.eqb c "+" || Ascii.eqb c "%".

(** No white space at the start of [s], and none at its end. *)
Definition startsClean (s : string) : bool :=
  match s with
  | EmptyString => true
  | String c _ => negb (isSpace c)
  end.

Definition endsClean (s : string) : bool :=
  match splitLast s with
  | Some (_, c) => negb (isSpace c)
  | None => true
  end.

(** A text on one line in normal form: single spaces as its only white
    space, and none at its ends. *)
Definition oneLine (s : string) : bool :=
  singleSpaced false s && startsClean s && endsClean s.

(** The selectors of the bibliography and of the parts of an entry. *)
Definition bibliography : Selector := AnyOf [byTagClass "section" "ltx_bibliography"].
Definition bibBlocks : Selector := AnyOf [byTagClass "span" "ltx_bibblock"].

(** The element that [extractReferences] reads the tag of an entry from,
    and the texts of the blocks of the entry. *)
Definition bibTagElement (item : Node) : option Node :=
  match querySelector item (AnyOf [byTagClass "span" "ltx_tag_bibitem"]) with
  | Some e => Some e
  | None => querySelector item (AnyOf [byTagClass "span" "ltx_bibtag"])
  end.

Definition bibBlockTexts (item : Node) : list string :=
  filter nonEmpty
         (map (fun b => trim (processInlineContent b)) (querySelectorAll item bibBlocks)).

Section NodeInduction.

Variable P : Node -> Prop.
Hypothesis text_case : forall data, P (TextNode data).
Hypothesis comment_case : forall data, P (CommentNode data).
Hypothesis element_case :
  forall tag classes attrs cs, Forall P cs -> P (Element tag classes attrs cs).

(** Induction on a node with the property at hand for all its children. *)
Fixpoint Node_children_ind (n : Node) : P n :=
  match n with
  | TextNode data => text_case data
  | CommentNode data => comment_case data
  | Element tag classes attrs cs =>
      element_case tag classes attrs cs
        ((fix children (l : list Node) : Forall P l :=
            match l with
            | [] => Forall_nil P
            | c :: l' => Forall_cons c (Node_children_ind c) (children l')
            end) cs)
  end.

End NodeInduction.

Module MoreSamples.

(** A paragraph container whose one child is an equation table without
    a formula. *)
Definition hollowParagraph : Node :=
  Samples.elem "DIV" ["ltx_para"]
    [Samples.elem "TABLE" ["ltx_equation"]
       [Samples.elem "TR" [] [Samples.elem "TD" [] [TextNode "(1)"]]]].

(** A page whose author list is spread over lines. *)
Definition byline : Document :=
  {| documentNodes :=
      [Samples.elem "DIV" ["ltx_authors"]
         [TextNode (LF ++ "  Ada Lovelace" ++ LF ++ "   Alan  Turing" ++ LF)]] |}.

(** A paragraph container with loose text beside an inline paragraph. *)
Definition mixedParagraph : Node :=
  Samples.elem "DIV" ["ltx_para"]
    [TextNode "loose";
     Samples.elem "P" ["ltx_p"] [TextNode "kept"];
     Samples.elem "SPAN" ["ltx_pagination"] [TextNode "3"]].

(** A figure with a site-relative image and no alternate text. *)
Definition figure : Node :=
  Samples.elem "FIGURE" ["ltx_figure"]
    [Element "IMG" ["ltx_graphics"] [("src", "/html/2512.16906/assets/x1.png")] [];
     Samples.elem "FIGCAPTION" [] [TextNode " Figure 1: Overview. "]].

(** A footnote of more than fifty characters. *)
Definition footnote : Node :=
  Samples.elem "SPAN" ["ltx_note"; "ltx_role_footnote"]
    [TextNode "1 This footnote is a good deal longer than the fifty characters kept."].

(** A bibliography entry with a bracketed tag. *)
Definition bibitem : Node :=
  Samples.elem "LI" ["ltx_bibitem"]
    [Samples.elem "SPAN" ["ltx_tag"; "ltx_tag_bibitem"] [TextNode "[12]"];
     Samples.elem "SPAN" ["ltx_bibblock"] [TextNode "A. Author."];
     Samples.elem "SPAN" ["ltx_bibblock"] [TextNode " A title. "]].

(** ar5iv answers 404. *)
Definition absent (log : list Request) (req : Request) : Response + string :=
  inl {| status := 404; text := "Not Found" |}.

(** The connection to ar5iv fails. *)
Definition offline (log : list Request) (req : Request) : Response + string :=
  inr "fetch failed".

(** ar5iv answers 307 and the connection to arxiv.org fails. *)
Definition unreachable (log : list Request) (req : Request) : Response + string :=
  if startsWith (url req) AR5IV_BASE
  then inl {| status := 307; text := "" |}
  else inr "fetch failed".

(** An equation whose tag is a pair of parentheses around nothing. *)
Definition emptyTagEquation : Node :=
  Samples.elem "TABLE" ["ltx_equation"]
    [Element "math" ["ltx_Math"] [("alttext", "x=y")] [];
     Samples.elem "SPAN" ["ltx_tag"; "ltx_tag_equation"] [TextNode "()"]].

(** An equation whose tag runs over two lines inside its parentheses. *)
Definition brokenTagEquation : Node :=
  Samples.elem "TABLE" ["ltx_equation"]
    [Element "math" ["ltx_Math"] [("alttext", "x=y")] [];
     Samples.elem "SPAN" ["ltx_tag"; "ltx_tag_equation"]
       [TextNode ("(1" ++ LF ++ "2)")]].

End MoreSamples.

(* ================================================================== *)
(** * Facts about strings *)
(* ================================================================== *)

Lemma append_assoc (a b c : string) : (a ++ b) ++ c = a ++ b ++ c.
Proof.
  induction a as [|x a IH]; simpl; [reflexivity | now rewrite IH].
Qed.

Lemma append_empty_r (a : string) : a ++ "" = a.
Proof.
  induction a as [|x a IH]; simpl; [reflexivity | now rewrite IH].
Qed.

Lemma prefix_append (a b : string) : String.prefix a (a ++ b) = true.
Proof.
  induction a as [|x a IH]; simpl.
  - now destruct b.
  - destruct (ascii_dec x x) as [_|ne]; [exact IH | now elim ne].
Qed.

Lemma nonEmpty_false (s : string) : nonEmpty s = false -> s = "".
Proof. destruct s; [reflexivity | discriminate]. Qed.

Lemma nonEmpty_append_r (a b : string) : nonEmpty b = true -> nonEmpty (a ++ b) = true.
Proof. destruct a; simpl; auto. Qed.


(* ================================================================== *)
(** * The assembled output, level by level *)
(* ================================================================== *)

(** Both sides are the same pieces, differently bracketed. *)
Ltac normalise_append :=
  rewrite ?append_assoc, ?append_empty_r; reflexivity.

Lemma assemble_abstract (doc : Document) :
  assembleMarkdown doc "abstract"
  = titleLine doc ++ authorsLine doc
    ++ "## Abstract" ++ LF ++ LF ++ extractAbstract doc ++ LF.
Proof.
  unfold assembleMarkdown, titleLine, authorsLine.
  change ("abstract" =? "appendix") with false.
  change ("abstract" =? "abstract") with true.
  rewrite andb_true_r; cbv beta iota.
  destruct (nonEmpty (extractTitle doc)), (nonEmpty (extractAuthors doc));
    normalise_append.
Qed.

Lemma assemble_body (doc : Document) :
  assembleMarkdown doc "body"
  = titleLine doc ++ authorsLine doc ++ abstractBlock doc ++ extractBody doc.
Proof.
  unfold assembleMarkdown, titleLine, authorsLine, abstractBlock.
  change ("body" =? "appendix") with false.
  change ("body" =? "abstract") with false.
  change ("body" =? "body") with true.
  rewrite andb_true_r; cbv beta iota.
  destruct (nonEmpty (extractTitle doc)), (nonEmpty (extractAuthors doc)),
    (nonEmpty (extractAbstract doc));
    normalise_append.
Qed.

Lemma assemble_appendix (doc : Document) :
  assembleMarkdown doc "appendix" = titleLine doc ++ extractAppendix doc.
Proof.
  unfold assembleMarkdown, titleLine.
  change ("appendix" =? "appendix") with true.
  change ("appendix" =? "abstract") with false.
  change ("appendix" =? "body") with false.
  rewrite andb_false_r; cbv beta iota.
  destruct (nonEmpty (extractTitle doc));
    normalise_append.
Qed.

(** Every selector that the [switch] does not name takes the [all] case. *)
Lemma assemble_default (doc : Document) (part : string) :
  (part =? "abstract") = false -> (part =? "body") = false ->
  (part =? "appendix") = false ->
  assembleMarkdown doc part
  = titleLine doc ++ authorsLine doc ++ abstractBlock doc ++ extractBody doc
    ++ extractReferences doc ++ appendixBlock doc.
Proof.
  intros Ha Hb Hc.
  unfold assembleMarkdown, titleLine, authorsLine, abstractBlock, appendixBlock.
  rewrite Ha, Hb, Hc, andb_true_r; cbv beta iota zeta.
  destruct (nonEmpty (extractTitle doc)), (nonEmpty (extractAuthors doc)),
    (nonEmpty (extractAbstract doc)), (nonEmpty (extractAppendix doc));
    normalise_append.
Qed.

Lemma assemble_all (doc : Document) :
  assembleMarkdown doc "all"
  = titleLine doc ++ authorsLine doc ++ abstractBlock doc ++ extractBody doc
    ++ extractReferences doc ++ appendixBlock doc.
Proof. now apply assemble_default. Qed.

(** C1. At every level the output opens with the title line, also at the
    appendix level of a page without an appendix; at every level but
    [appendix] the authors line follows it; at the [appendix] level the
    title line is followed by the appendix alone, with no authors line. *)
Theorem title_and_authors_by_level (doc : Document) (part : string) :
  (part <> "appendix" ->
   exists rest,
     assembleMarkdown doc part = titleLine doc ++ authorsLine doc ++ rest)
  /\ (part = "appendix" ->
      assembleMarkdown doc part = titleLine doc ++ extractAppendix doc).
Proof.
  split.
  - intros Hpart.
    destruct (part =? "abstract") eqn:Ha.
    { apply String.eqb_eq in Ha; subst part.
      eexists; apply assemble_abstract. }
    destruct (part =? "body") eqn:Hb.
    { apply String.eqb_eq in Hb; subst part.
      eexists; apply assemble_body. }
    destruct (part =? "appendix") eqn:Hc.
    { apply String.eqb_eq in Hc; contradiction. }
    eexists; apply assemble_default; assumption.
  - intros ->; apply assemble_appendix.
Qed.

Lemma title_and_authors_by_level_witness :
  (exists rest,
      assembleMarkdown Samples.paper "body"
      = titleLine Samples.paper ++ authorsLine Samples.paper ++ rest)
  /\ assembleMarkdown Samples.bare "appendix"
     = titleLine Samples.bare ++ extractAppendix Samples.bare.
Proof.
  split.
  - apply (proj1 (title_and_authors_by_level Samples.paper "body")).
    discriminate.
  - apply (proj2 (title_and_authors_by_level Samples.bare "appendix")).
    reflexivity.
Defined.

(** The appendix level of a page that has a title but no appendix is the
    title line, not the empty string. *)
Example appendix_level_keeps_title :
  extractAppendix Samples.bare = ""
  /\ assembleMarkdown Samples.bare "appendix" = "# T" ++ LF ++ LF.
Proof. split; reflexivity. Qed.

(** C3. The [all] output is the [body] output followed by the references
    and the appendix block; so the [body] output, which is the title line,
    the authors line, the abstract block and the body text, is a prefix of
    the [all] output. *)
Theorem body_is_prefix_of_all (doc : Document) :
  assembleMarkdown doc "all"
  = assembleMarkdown doc "body" ++ extractReferences doc ++ appendixBlock doc
  /\ assembleMarkdown doc "body"
     = titleLine doc ++ authorsLine doc ++ abstractBlock doc ++ extractBody doc
  /\ String.prefix (assembleMarkdown doc "body") (assembleMarkdown doc "all")
     = true.
Proof.
  assert (E : assembleMarkdown doc "all"
              = assembleMarkdown doc "body"
                ++ extractReferences doc ++ appendixBlock doc).
  { rewrite assemble_all, assemble_body. normalise_append. }
  split; [exact E|].
  split; [apply assemble_body|].
  rewrite E. apply prefix_append.
Qed.

(** C9. The [abstract] level writes the abstract heading whatever the
    abstract is, and on a page without an abstract region the heading is
    followed by nothing but the line end; the [body] and [all] levels write
    the heading and the abstract when the abstract is not empty, and
    neither of them when it is empty. *)
Theorem abstract_heading_by_level (doc : Document) :
  assembleMarkdown doc "abstract"
  = titleLine doc ++ authorsLine doc
    ++ "## Abstract" ++ LF ++ LF ++ extractAbstract doc ++ LF
  /\ (docQuerySelector doc (AnyOf [byClass "ltx_abstract"]) = None ->
      assembleMarkdown doc "abstract"
      = titleLine doc ++ authorsLine doc ++ "## Abstract" ++ LF ++ LF ++ LF)
  /\ (nonEmpty (extractAbstract doc) = true ->
      assembleMarkdown doc "body"
      = titleLine doc ++ authorsLine doc
        ++ ("## Abstract" ++ LF ++ LF ++ extractAbstract doc ++ LF ++ LF)
        ++ extractBody doc
      /\ assembleMarkdown doc "all"
         = titleLine doc ++ authorsLine doc
           ++ ("## Abstract" ++ LF ++ LF ++ extractAbstract doc ++ LF ++ LF)
           ++ extractBody doc ++ extractReferences doc ++ appendixBlock doc)
  /\ (nonEmpty (extractAbstract doc) = false ->
      assembleMarkdown doc "body"
      = titleLine doc ++ authorsLine doc ++ extractBody doc
      /\ assembleMarkdown doc "all"
         = titleLine doc ++ authorsLine doc
           ++ extractBody doc ++ extractReferences doc ++ appendixBlock doc).
Proof.
  split; [apply assemble_abstract|].
  split.
  { intros Hnone. rewrite assemble_abstract.
    unfold extractAbstract. rewrite Hnone. reflexivity. }
  split; intros Hne; rewrite assemble_body, assemble_all;
    unfold abstractBlock; rewrite Hne; split; reflexivity.
Qed.

Lemma abstract_heading_by_level_witness :
  assembleMarkdown Samples.bare "abstract"
  = titleLine Samples.bare ++ authorsLine Samples.bare
    ++ "## Abstract" ++ LF ++ LF ++ LF
  /\ assembleMarkdown Samples.paper "body"
     = titleLine Samples.paper ++ authorsLine Samples.paper
       ++ ("## Abstract" ++ LF ++ LF ++ extractAbstract Samples.paper ++ LF ++ LF)
       ++ extractBody Samples.paper
  /\ assembleMarkdown Samples.bare "body"
     = titleLine Samples.bare ++ authorsLine Samples.bare
       ++ extractBody Samples.bare.
Proof.
  split; [|split].
  - apply (proj1 (proj2 (abstract_heading_by_level Samples.bare))).
    reflexivity.
  - apply (proj1 (proj2 (proj2 (abstract_heading_by_level Samples.paper)))).
    reflexivity.
  - apply (proj2 (proj2 (proj2 (abstract_heading_by_level Samples.bare)))).
    reflexivity.
Defined.

(* ================================================================== *)
(** * Citations *)
(* ================================================================== *)

Lemma matches_refPointers (pn : option Node * Node) :
  matchesSelector refPointers pn = isPointer (snd pn).
Proof.
  destruct pn as [parent [d|d|tag classes attrs cs]]; simpl; try reflexivity.
  rewrite orb_false_r.
  destruct (toLowerCase tag =? "a"), (toLowerCase tag =? "span"),
    (contains classes "ltx_ref"); reflexivity.
Qed.

Lemma in_select (s : Selector) (pool : list (option Node * Node)) (r : Node) :
  In r (select s pool)
  <-> exists parent, In (parent, r) pool /\ matchesSelector s (parent, r) = true.
Proof.
  unfold select. rewrite in_map_iff. split.
  - intros [[parent r'] [E H]]; simpl in E; subst r'.
    apply filter_In in H. now exists parent.
  - intros [parent [H M]]. exists (parent, r). split; [reflexivity|].
    apply filter_In. now split.
Qed.

Lemma filter_map_swap {A B} (p : B -> bool) (f : A -> B) (l : list A) :
  filter p (map f l) = map f (filter (fun x => p (f x)) l).
Proof.
  induction l as [|x l IH]; simpl; [reflexivity|].
  destruct (p (f x)); simpl; now rewrite IH.
Qed.

Lemma citeTexts_visible (el : Node) :
  citeTexts el
  = map visibleText (filter resolvable (querySelectorAll el refPointers)).
Proof. exact (filter_map_swap nonEmpty visibleText _). Qed.

Lemma filter_all {A} (p : A -> bool) (l : list A) :
  (forall x, In x l -> p x = true) -> filter p l = l.
Proof.
  induction l as [|x l IH]; simpl; intros H; [reflexivity|].
  rewrite (H x (or_introl eq_refl)). f_equal. apply IH.
  intros y Hy. apply H. now right.
Qed.

(** C4. A citation renders as the texts of its pointers between square
    brackets, joined by a comma and a space.  The pointers are all the
    descendants of the citation that are an anchor or a span with the
    reference class, in document order; the text of a pointer is its text
    content trimmed, and a pointer without such a text is not resolvable
    and gives nothing.  A citation without resolvable pointers renders as
    an empty pair of brackets; when the text content of every pointer is
    not empty and has no white space around it, the citation is the join
    of the text contents as they are. *)
Theorem citation_rendering (cite : Node) :
  isCitation cite = true ->
  let pointers := querySelectorAll cite refPointers in
  (forall r, In r pointers
             <-> (exists parent, In (parent, r) (descendants cite))
                 /\ isPointer r = true)
  /\ inlineNode processInlineContent cite
     = "[" ++ join ", " (map visibleText (filter resolvable pointers)) ++ "]"
  /\ (filter resolvable pointers = [] ->
      inlineNode processInlineContent cite = "[]")
  /\ ((forall r, In r pointers ->
                 nonEmpty (textContent r) = true
                 /\ trim (textContent r) = textContent r) ->
      inlineNode processInlineContent cite
      = "[" ++ join ", " (map textContent pointers) ++ "]").
Proof.
  intros Hcite pointers.
  assert (E : inlineNode processInlineContent cite
              = "[" ++ join ", " (map visibleText (filter resolvable pointers))
                    ++ "]").
  { destruct cite as [d|d|tag classes attrs cs]; try discriminate.
    simpl in Hcite. apply andb_true_iff in Hcite as [Hmath Hc].
    apply negb_true_iff in Hmath.
    unfold inlineNode. rewrite Hmath, Hc. now rewrite citeTexts_visible. }
  split; [|split; [|split]].
  - intros r. unfold pointers, querySelectorAll. rewrite in_select. split.
    + intros [parent [Hin Hm]]. rewrite matches_refPointers in Hm.
      split; [now exists parent | exact Hm].
    + intros [[parent Hin] Hp]. exists parent. split; [exact Hin|].
      now rewrite matches_refPointers.
  - exact E.
  - intros Hnone. rewrite E, Hnone. reflexivity.
  - intros Hplain. rewrite E. do 3 f_equal.
    rewrite filter_all.
    + apply map_ext_in. intros r Hr. apply (Hplain r Hr).
    + intros r Hr. unfold resolvable, visibleText.
      destruct (Hplain r Hr) as [Hne Htrim]. now rewrite Htrim.
Qed.

Lemma citation_rendering_witness :
  isCitation Samples.citation = true
  /\ inlineNode processInlineContent Samples.citation = "[12, 7]".
Proof.
  split; [reflexivity|].
  apply (proj2 (proj2 (proj2 (citation_rendering Samples.citation eq_refl)))).
  intros r [<-|[<-|[]]]; split; reflexivity.
Defined.

(** Pointers whose text is blank are left out, and the texts are trimmed. *)
Example citation_blank_pointer :
  inlineNode processInlineContent
    (Samples.elem "CITE" ["ltx_cite"]
       [Samples.elem "A" ["ltx_ref"] [TextNode " 12 "];
        Samples.elem "A" ["ltx_ref"] [TextNode "  "]])
  = "[12]".
Proof. reflexivity. Qed.

Example citation_without_pointers :
  inlineNode processInlineContent
    (Samples.elem "CITE" ["ltx_cite"] [TextNode "(Knuth, 1984)"])
  = "[]".
Proof. reflexivity. Qed.

(* ================================================================== *)
(** * Equations *)
(* ================================================================== *)

Lemma splitLast_snoc (s : string) (c : ascii) :
  splitLast (s ++ String c "") = Some (s, c).
Proof.
  induction s as [|d s IH]; simpl; [reflexivity | now rewrite IH].
Qed.

Lemma splitLast_inv (s i : string) (c : ascii) :
  splitLast s = Some (i, c) -> s = i ++ String c "".
Proof.
  revert i. induction s as [|d s IH]; simpl; intros i H; [discriminate|].
  destruct (splitLast s) as [[i' l]|] eqn:E.
  - injection H as <- <-. simpl. now rewrite (IH i' eq_refl).
  - injection H as <- <-. destruct s; [reflexivity|].
    simpl in E. now destruct (splitLast s) as [[? ?]|].
Qed.

(** The pattern strips one pair of parentheses around a text of at least
    one character and of one line. *)
Lemma stripParens_enclosed (inner : string) :
  nonEmpty inner = true -> noLineTerminator inner = true ->
  stripParens ("(" ++ inner ++ ")") = inner.
Proof.
  intros Hne Hline. unfold stripParens.
  change ("(" ++ inner ++ ")") with (String "(" (inner ++ ")")).
  cbv beta iota.
  change (inner ++ ")") with (inner ++ String ")" "").
  rewrite splitLast_snoc. now rewrite Hne, Hline.
Qed.

(** A tag that is not inside a pair of parentheses is left as it is. *)
Lemma stripParens_other (tag : string) :
  (forall inner, tag <> "(" ++ inner ++ ")") -> stripParens tag = tag.
Proof.
  intros Hno. unfold stripParens.
  destruct tag as [|c r]; [reflexivity|].
  destruct (Ascii.eqb_spec c "(") as [->|ne].
  - destruct (splitLast r) as [[i l]|] eqn:E; [|reflexivity].
    destruct (Ascii.eqb_spec l ")") as [->|ne'].
    + apply splitLast_inv in E. subst r. now elim (Hno i).
    + destruct l as [[] [] [] [] [] [] [] []]; try reflexivity. now elim ne'.
  - destruct c as [[] [] [] [] [] [] [] []]; try reflexivity. now elim ne.
Qed.

(** A pair of parentheses around nothing, or around a text with a line
    terminator in it, is not taken by the pattern: the tag is left as it
    is, parentheses included. *)
Lemma stripParens_kept (inner : string) :
  nonEmpty inner && noLineTerminator inner = false ->
  stripParens ("(" ++ inner ++ ")") = "(" ++ inner ++ ")".
Proof.
  intros Hno. unfold stripParens.
  change ("(" ++ inner ++ ")") with (String "(" (inner ++ ")")).
  cbv beta iota.
  change (inner ++ ")") with (inner ++ String ")" "").
  rewrite splitLast_snoc. now rewrite Hno.
Qed.

(** The shape of an equation block that contains a formula: a line end,
    the dollar fence, the formula's alternate text, the dollar fence, then
    a space and the tag in parentheses when the tag is not empty, then a
    line end.  The tag is the trimmed text of the tag element, from which
    one pair of enclosing parentheses is stripped when the pair encloses at
    least one character, on one line; a tag without a pair is kept;
    without a tag element the tag is empty. *)
Theorem equation_rendering (element math : Node) :
  querySelector element (AnyOf [byTag "math"]) = Some math ->
  let alttext := orElse (getAttribute math "alttext") "" in
  let tag := equationTag element in
  processEquation element
  = LF ++ "$$" ++ LF ++ alttext ++ LF ++ "$$"
       ++ (if nonEmpty tag then " (" ++ tag ++ ")" else "") ++ LF
  /\ (forall tagEl inner,
         querySelector element (AnyOf [byClass "ltx_tag"]) = Some tagEl ->
         trim (textContent tagEl) = "(" ++ inner ++ ")" ->
         nonEmpty inner = true -> noLineTerminator inner = true ->
         tag = inner)
  /\ (forall tagEl,
         querySelector element (AnyOf [byClass "ltx_tag"]) = Some tagEl ->
         (forall inner, trim (textContent tagEl) <> "(" ++ inner ++ ")") ->
         tag = trim (textContent tagEl))
  /\ (querySelector element (AnyOf [byClass "ltx_tag"]) = None -> tag = "").
Proof.
  intros Hmath alttext tag. split; [|split; [|split]].
  - unfold processEquation. rewrite Hmath. reflexivity.
  - intros tagEl inner Htag Htext Hne Hline.
    unfold tag, equationTag. rewrite Htag, Htext.
    now apply stripParens_enclosed.
  - intros tagEl Htag Hno. unfold tag, equationTag. rewrite Htag.
    now apply stripParens_other.
  - intros Htag. unfold tag, equationTag. now rewrite Htag.
Qed.

Lemma equation_rendering_witness :
  processEquation Samples.equation
  = LF ++ "$$" ++ LF ++ "x=y" ++ LF ++ "$$ (3)" ++ LF
  /\ equationTag Samples.equation = "3".
Proof.
  pose proof (equation_rendering Samples.equation
                (Element "math" ["ltx_Math"] [("alttext", "x=y")] [])
                eq_refl) as [Hblock [Hstrip _]].
  split.
  - exact Hblock.
  - apply (Hstrip (Samples.elem "SPAN" ["ltx_tag"; "ltx_tag_equation"]
                     [TextNode "(3)"]) "3");
      reflexivity.
Defined.

(** C6. The enclosing pair of parentheses is not always stripped from
    the tag of an equation: when the trimmed text of the tag element is a
    pair of parentheses around nothing, or around a text with a line
    terminator in it, [processEquation] keeps the pair, and the block
    shows the tag inside two pairs of parentheses. *)
Theorem equation_pair_kept (element math tagEl : Node) (inner : string) :
  querySelector element (AnyOf [byTag "math"]) = Some math ->
  querySelector element (AnyOf [byClass "ltx_tag"]) = Some tagEl ->
  trim (textContent tagEl) = "(" ++ inner ++ ")" ->
  nonEmpty inner && noLineTerminator inner = false ->
  equationTag element = "(" ++ inner ++ ")"
  /\ processEquation element
     = LF ++ "$$" ++ LF ++ orElse (getAttribute math "alttext") "" ++ LF
          ++ "$$" ++ (" (" ++ ("(" ++ inner ++ ")") ++ ")") ++ LF.
Proof.
  intros Hmath Htag Htext Hno.
  assert (E : equationTag element = "(" ++ inner ++ ")").
  { unfold equationTag. rewrite Htag, Htext. now apply stripParens_kept. }
  split; [exact E|].
  unfold processEquation. rewrite Hmath. cbv zeta. rewrite E. reflexivity.
Qed.

Lemma equation_pair_kept_witness :
  equationTag MoreSamples.emptyTagEquation = "()"
  /\ processEquation MoreSamples.emptyTagEquation
     = LF ++ "$$" ++ LF ++ "x=y" ++ LF ++ "$$ (())" ++ LF.
Proof.
  apply (equation_pair_kept MoreSamples.emptyTagEquation
           (Element "math" ["ltx_Math"] [("alttext", "x=y")] [])
           (Samples.elem "SPAN" ["ltx_tag"; "ltx_tag_equation"] [TextNode "()"])
           "");
    reflexivity.
Defined.

Example equation_tag_over_two_lines :
  processEquation MoreSamples.brokenTagEquation
  = LF ++ "$$" ++ LF ++ "x=y" ++ LF ++ "$$ ((1" ++ LF ++ "2))" ++ LF.
Proof. reflexivity. Qed.

(* ================================================================== *)
(** * Tables *)
(* ================================================================== *)

Section CellText.

Lemma occurs_append (c : ascii) (a b : string) :
  occurs c (a ++ b) = occurs c a || occurs c b.
Proof.
  induction a as [|d a IH]; simpl; [reflexivity|].
  now rewrite IH, orb_assoc.
Qed.

Lemma replaceAll_removes (c : ascii) (by_ s : string) :
  occurs c by_ = false -> occurs c (replaceAll c by_ s) = false.
Proof.
  intros Hby. induction s as [|d s IH]; simpl; [reflexivity|].
  destruct (Ascii.eqb d c) eqn:E.
  - now rewrite occurs_append, Hby, IH.
  - simpl. now rewrite E, IH.
Qed.

Lemma trimStart_occurs (c : ascii) (s : string) :
  occurs c s = false -> occurs c (trimStart s) = false.
Proof.
  induction s as [|d s IH]; simpl; [reflexivity|].
  intros H. apply orb_false_iff in H as [Hd Hs].
  destruct (isSpace d); [now apply IH|].
  simpl. now rewrite Hd, Hs.
Qed.

Lemma trimEnd_occurs (c : ascii) (s : string) :
  occurs c s = false -> occurs c (trimEnd s) = false.
Proof.
  induction s as [|d s IH]; simpl; [reflexivity|].
  intros H. apply orb_false_iff in H as [Hd Hs].
  destruct (isSpace d && negb (nonEmpty (trimEnd s))); [reflexivity|].
  simpl. now rewrite Hd, IH.
Qed.

Lemma escape_pipes (b : bool) (s : string) :
  pipesEscaped b (replaceAll "|" "\|" s) = true.
Proof.
  revert b. induction s as [|d s IH]; intros b; simpl; [reflexivity|].
  destruct (Ascii.eqb_spec d "|") as [->|ne].
  - simpl. apply IH.
  - simpl. destruct (Ascii.eqb_spec d "|"); [contradiction|]. apply IH.
Qed.

Lemma space_not_backslash (d : ascii) :
  isSpace d = true -> Ascii.eqb d "\" = false.
Proof.
  intros H. destruct (Ascii.eqb_spec d "\") as [->|]; [discriminate|reflexivity].
Qed.

Lemma newlines_keep_escapes (b : bool) (s : string) :
  pipesEscaped b s = true ->
  pipesEscaped b (replaceAll lineFeed " " s) = true.
Proof.
  revert b. induction s as [|d s IH]; intros b; simpl; [reflexivity|].
  intros H. apply andb_true_iff in H as [Hd Hs].
  destruct (Ascii.eqb_spec d lineFeed) as [->|ne].
  - simpl. apply IH. exact Hs.
  - simpl. rewrite Hd. apply IH. exact Hs.
Qed.

Lemma trimStart_keeps_escapes (s : string) :
  pipesEscaped false s = true -> pipesEscaped false (trimStart s) = true.
Proof.
  induction s as [|d s IH]; simpl; [reflexivity|].
  intros H. destruct (isSpace d) eqn:Hsp.
  - apply andb_true_iff in H as [_ Hs].
    rewrite (space_not_backslash d Hsp) in Hs. now apply IH.
  - exact H.
Qed.

Lemma trimEnd_keeps_escapes (b : bool) (s : string) :
  pipesEscaped b s = true -> pipesEscaped b (trimEnd s) = true.
Proof.
  revert b. induction s as [|d s IH]; intros b; simpl; [reflexivity|].
  intros H. apply andb_true_iff in H as [Hd Hs].
  destruct (isSpace d && negb (nonEmpty (trimEnd s))); [reflexivity|].
  simpl. rewrite Hd. now apply IH.
Qed.

End CellText.

Lemma tableRows_later (rows : list Node) (md : string) :
  tableRows rows md false
  = md ++ appendAll (map (fun row => rowLine (rowCells row)) rows).
Proof.
  revert md. induction rows as [|row rows IH]; intros md; simpl.
  - now rewrite append_empty_r.
  - rewrite IH. now rewrite append_assoc.
Qed.

Lemma separator_cells (cellTexts : list string) :
  map (fun _ : string => "---") cellTexts
  = List.repeat "---" (List.length cellTexts).
Proof.
  induction cellTexts as [|c cs IH]; simpl; [reflexivity | now rewrite IH].
Qed.

(** C5. A table without rows renders as the empty string.  Otherwise the
    rows are written in document order, one line each: a line end first,
    the first row, a separator row with as many [---] cells as the first
    row has cells, the other rows, and a closing line end.  The text of a
    cell is its inline rendering with every pipe escaped by a backslash and
    every line end replaced by a space, then trimmed: it contains no line
    end, and each of its pipes follows a backslash. *)
Theorem table_rendering (table : Node) :
  let rows := querySelectorAll table (AnyOf [byTag "tr"]) in
  (rows = [] -> processTable table = "")
  /\ (forall first others,
         rows = first :: others ->
         processTable table
         = LF ++ rowLine (rowCells first)
              ++ ("| " ++ join " | " (List.repeat "---" (List.length (rowCells first)))
                       ++ " |" ++ LF)
              ++ appendAll (map (fun row => rowLine (rowCells row)) others)
              ++ LF)
  /\ (forall row,
         rowCells row
         = map cellText (querySelectorAll row (AnyOf [byTag "td"; byTag "th"]))
         /\ rowLine (rowCells row) = "| " ++ join " | " (rowCells row) ++ " |" ++ LF)
  /\ (forall cell,
         cellText cell
         = trim (replaceAll lineFeed " "
                   (replaceAll "|" "\|" (processInlineContent cell)))
         /\ occurs lineFeed (cellText cell) = false
         /\ pipesEscaped false (cellText cell) = true).
Proof.
  intros rows. split; [|split; [|split]].
  - intros Hrows. unfold processTable. fold rows. now rewrite Hrows.
  - intros first others Hrows. unfold processTable. fold rows. rewrite Hrows.
    cbn [tableRows]. rewrite tableRows_later.
    unfold separatorLine. rewrite separator_cells. normalise_append.
  - intros row. split; reflexivity.
  - intros cell. split; [reflexivity|]. unfold cellText, trim. split.
    + apply trimEnd_occurs, trimStart_occurs, replaceAll_removes. reflexivity.
    + apply trimEnd_keeps_escapes, trimStart_keeps_escapes,
        newlines_keep_escapes, escape_pipes.
Qed.

Lemma table_rendering_witness :
  processTable (Samples.elem "TABLE" ["ltx_tabular"] []) = ""
  /\ processTable Samples.grid
     = LF ++ "| A | B |" ++ LF
          ++ "| --- | --- |" ++ LF
          ++ "| 1 | 2 |" ++ LF ++ LF.
Proof.
  split.
  - apply (proj1 (table_rendering (Samples.elem "TABLE" ["ltx_tabular"] []))).
    reflexivity.
  - apply (proj1 (proj2 (table_rendering Samples.grid))
             (Samples.elem "TR" []
                [Samples.elem "TH" [] [TextNode "A"];
                 Samples.elem "TH" [] [TextNode "B"]])
             [Samples.elem "TR" []
                [Samples.elem "TD" [] [TextNode "1"];
                 Samples.elem "TD" [] [TextNode "2"]]]).
    reflexivity.
Defined.

(** A pipe and a line end inside a cell. *)
Example table_cell_escapes :
  cellText (Samples.elem "TD" [] [TextNode " a|b"; Samples.elem "BR" [] []; TextNode "c "])
  = "a\|b c".
Proof. reflexivity. Qed.

(* ================================================================== *)
(** * Paragraphs *)
(* ================================================================== *)

Lemma paragraphChild_unstructured (child : Node) :
  isStructured child = false -> paragraphChild child = "".
Proof.
  destruct child as [d|d|tagName classes attrs cs]; try reflexivity.
  unfold isStructured, paragraphChild.
  destruct (tagName =? "P"), (contains classes "ltx_p"),
    (tagName =? "TABLE"), (contains classes "ltx_equation"),
    (contains classes "ltx_eqn_table"), (contains classes "ltx_tabular"),
    (tagName =? "FIGURE"), (contains classes "ltx_figure");
    simpl; intros H; try reflexivity; discriminate.
Qed.

Lemma appendAll_nothing {A} (f : A -> string) (l : list A) :
  (forall x, In x l -> f x = "") -> appendAll (map f l) = "".
Proof.
  induction l as [|x l IH]; simpl; intros H; [reflexivity|].
  rewrite (H x (or_introl eq_refl)). apply IH. intros y Hy. apply H. now right.
Qed.

(** C10. A paragraph container none of whose children has a structured
    shape renders as its own inline content followed by two line ends;
    its rendering is therefore not empty. *)
Theorem paragraph_fallback (para : Node) :
  (forall child, In child (childNodesOf para) -> isStructured child = false) ->
  processParagraph para = processInlineContent para ++ LF ++ LF
  /\ nonEmpty (processParagraph para) = true.
Proof.
  intros Hnone.
  assert (E : processParagraph para = processInlineContent para ++ LF ++ LF).
  { unfold processParagraph.
    rewrite appendAll_nothing; [reflexivity|].
    intros child Hin. apply paragraphChild_unstructured. now apply Hnone. }
  split; [exact E|].
  rewrite E. apply nonEmpty_append_r. reflexivity.
Qed.

Lemma paragraph_fallback_witness :
  processParagraph
    (Samples.elem "DIV" ["ltx_para"]
       [TextNode "loose text "; Samples.elem "SPAN" ["ltx_text"] [TextNode "here"]])
  = "loose text here" ++ LF ++ LF.
Proof.
  apply (paragraph_fallback
           (Samples.elem "DIV" ["ltx_para"]
              [TextNode "loose text ";
               Samples.elem "SPAN" ["ltx_text"] [TextNode "here"]])).
  intros child [<-|[<-|[]]]; reflexivity.
Defined.

(* ================================================================== *)
(** * Heading depth *)
(* ================================================================== *)









(** The sample section: depth 2, 3 for its subsection, 5 for the part
    below the subsection, 2 inside the logical group. *)
Example section_depths :
  processSectionContent Samples.section 2
  = "## Intro" ++ LF ++ LF ++ "### Sub" ++ LF ++ LF
    ++ "##### Part" ++ LF ++ LF ++ "## Grouped" ++ LF ++ LF.
Proof. reflexivity. Qed.

(* ================================================================== *)
(** * The fetch and its fallback *)
(* ================================================================== *)

Lemma contacts_app (base : string) (l l' : list Request) :
  contacts base (l ++ l')%list = contacts base l + contacts base l'.
Proof.
  unfold contacts. now rewrite filter_app, length_app.
Qed.

Lemma ar5iv_is_not_arxiv (arxivId : string) :
  startsWith (url (ar5ivRequest arxivId)) ARXIV_HTML_BASE = false.
Proof. reflexivity. Qed.

Lemma arxiv_is_arxiv (arxivId : string) :
  startsWith (url (arxivRequest arxivId)) ARXIV_HTML_BASE = true.
Proof. apply prefix_append. Qed.

Lemma notAvailable_message (status : nat) :
  startsWith (notAvailable status) "Paper HTML not available" = true.
Proof. reflexivity. Qed.

(** C8. When ar5iv answers 307, [fetchAr5iv] issues after the request to
    ar5iv one request to arxiv.org and no other.  When arxiv.org answers,
    it returns the text of an [ok] answer and throws, on any other answer,
    the error that starts with [Paper HTML not available]; when the
    request to arxiv.org is rejected, it throws the message of the
    rejection.  When ar5iv does not answer 307, the request to ar5iv is
    the only one and arxiv.org is not contacted. *)
Theorem fallback_once (net : Network) (arxivId : string) (log : list Request) :
  let primary := ar5ivRequest arxivId in
  let secondary := arxivRequest arxivId in
  let run := fetchAr5iv net arxivId log in
  (forall r1, net log primary = inl r1 -> status r1 = 307 ->
      snd run = (log ++ [primary; secondary])%list
      /\ contacts ARXIV_HTML_BASE (snd run) = contacts ARXIV_HTML_BASE log + 1
      /\ fst run
         = match net (log ++ [primary])%list secondary with
           | inl r2 => if ok r2 then Returned (text r2)
                       else Thrown (notAvailable (status r2))
           | inr message => Thrown message
           end
      /\ (forall status,
             startsWith (notAvailable status) "Paper HTML not available" = true))
  /\ ((forall r1, net log primary = inl r1 -> status r1 <> 307) ->
      snd run = (log ++ [primary])%list
      /\ contacts ARXIV_HTML_BASE (snd run) = contacts ARXIV_HTML_BASE log).
Proof.
  intros primary secondary run. subst primary secondary run. split.
  - intros r1 H1 H307.
    assert (Elog : snd (fetchAr5iv net arxivId log)
                   = (log ++ [ar5ivRequest arxivId; arxivRequest arxivId])%list).
    { unfold fetchAr5iv, bind, fetch.
      rewrite H1. cbv beta iota. rewrite H307.
      change (307 =? 307)%nat with true. cbv beta iota.
      change [ar5ivRequest arxivId; arxivRequest arxivId]
        with ([ar5ivRequest arxivId] ++ [arxivRequest arxivId])%list.
      rewrite app_assoc.
      destruct (net (log ++ [ar5ivRequest arxivId])%list (arxivRequest arxivId))
        as [r2|msg]; [destruct (ok r2)|]; reflexivity. }
    split; [exact Elog|]. split; [|split].
    + rewrite Elog, contacts_app. f_equal.
      unfold contacts. cbn [filter].
      now rewrite ar5iv_is_not_arxiv, arxiv_is_arxiv.
    + unfold fetchAr5iv, bind, fetch.
      rewrite H1. cbv beta iota. rewrite H307.
      change (307 =? 307)%nat with true. cbv beta iota.
      destruct (net (log ++ [ar5ivRequest arxivId])%list (arxivRequest arxivId))
        as [r2|msg]; [destruct (ok r2)|]; reflexivity.
    + apply notAvailable_message.
  - intros Hnot.
    assert (Elog : snd (fetchAr5iv net arxivId log)
                   = (log ++ [ar5ivRequest arxivId])%list).
    { unfold fetchAr5iv, bind, fetch.
      destruct (net log (ar5ivRequest arxivId)) as [r1|msg] eqn:H1;
        [|reflexivity].
      destruct (Nat.eqb_spec (status r1) 307) as [E|_].
      - now elim (Hnot r1 eq_refl).
      - now destruct (ok r1). }
    split; [exact Elog|].
    rewrite Elog, contacts_app. unfold contacts at 2. cbn [filter].
    rewrite ar5iv_is_not_arxiv. simpl. apply Nat.add_0_r.
Qed.

Lemma fallback_once_witness :
  (snd (fetchAr5iv Samples.redirected "2512.16906" [])
   = [ar5ivRequest "2512.16906"; arxivRequest "2512.16906"]
   /\ fst (fetchAr5iv Samples.redirected "2512.16906" [])
      = Returned Samples.page)
  /\ fst (fetchAr5iv Samples.missing "2512.16906" [])
     = Thrown (notAvailable 404)
  /\ (snd (fetchAr5iv MoreSamples.unreachable "2512.16906" [])
      = [ar5ivRequest "2512.16906"; arxivRequest "2512.16906"]
      /\ fst (fetchAr5iv MoreSamples.unreachable "2512.16906" [])
         = Thrown "fetch failed")
  /\ snd (fetchAr5iv Samples.served "2512.16906" [])
     = [ar5ivRequest "2512.16906"].
Proof.
  pose proof (proj1 (fallback_once Samples.redirected "2512.16906" [])
                {| status := 307; text := "" |} eq_refl eq_refl)
    as [Hlog [_ [Hout _]]].
  pose proof (proj1 (fallback_once Samples.missing "2512.16906" [])
                {| status := 307; text := "" |} eq_refl eq_refl)
    as [_ [_ [Hmiss _]]].
  pose proof (proj1 (fallback_once MoreSamples.unreachable "2512.16906" [])
                {| status := 307; text := "" |} eq_refl eq_refl)
    as [Hlog' [_ [Hrej _]]].
  split; [split|split; [|split; [split|]]].
  - exact Hlog.
  - exact Hout.
  - exact Hmiss.
  - exact Hlog'.
  - exact Hrej.
  - apply (proj2 (fallback_once Samples.served "2512.16906" [])).
    intros r1 H. injection H as <-. discriminate.
Defined.

(** ar5iv answers 307 and the request to arxiv.org is rejected: the
    request is issued once, and [fetchAr5iv] neither returns a text nor
    throws the error that starts with [Paper HTML not available]; it
    throws the message of the rejection. *)
Lemma fallback_rejected_counterexample :
  MoreSamples.unreachable [] (ar5ivRequest "2512.16906")
  = inl {| status := 307; text := "" |}
  /\ snd (fetchAr5iv MoreSamples.unreachable "2512.16906" [])
     = [ar5ivRequest "2512.16906"; arxivRequest "2512.16906"]
  /\ fst (fetchAr5iv MoreSamples.unreachable "2512.16906" [])
     = Thrown "fetch failed"
  /\ ~ ((exists html,
           fst (fetchAr5iv MoreSamples.unreachable "2512.16906" [])
           = Returned html)
        \/ (exists message,
              fst (fetchAr5iv MoreSamples.unreachable "2512.16906" [])
              = Thrown message
              /\ startsWith message "Paper HTML not available" = true)).
Proof.
  split; [reflexivity|]. split; [reflexivity|]. split; [reflexivity|].
  intros [[html H]|[message [H Hstart]]].
  - discriminate H.
  - change (fst (fetchAr5iv MoreSamples.unreachable "2512.16906" []))
      with (@Thrown string "fetch failed") in H.
    injection H as <-. discriminate Hstart.
Qed.

(* ================================================================== *)
(** * Running text without markup *)
(* ================================================================== *)

Lemma passesThrough_inline (self : Node -> string) (tag : string)
      (classes : list string) (attrs : list (string * string)) (cs : list Node) :
  passesThrough (Element tag classes attrs cs) = true ->
  inlineNode self (Element tag classes attrs cs)
  = self (Element tag classes attrs cs).
Proof.
  unfold passesThrough, inlineNode. cbv zeta. intros H.
  apply negb_true_iff in H.
  repeat match type of H with
         | (_ || _) = false => apply orb_false_iff in H; destruct H as [H ?]
         end.
  repeat match goal with
         | E : _ = false |- _ => rewrite E; clear E
         end.
  reflexivity.
Qed.

Lemma plainText_child (node : Node) :
  plainText node = true ->
  inlineNode processInlineContent node
  = match node with CommentNode _ => "" | _ => textContent node end.
Proof.
  induction node as [data|data|tag classes attrs cs IH] using Node_children_ind;
    intros Hplain; try reflexivity.
  cbn [plainText] in Hplain. apply andb_true_iff in Hplain as [Hpass Hcs].
  rewrite (passesThrough_inline _ _ _ _ _ Hpass).
  cbn [processInlineContent textContent]. f_equal.
  clear Hpass. induction cs as [|c cs IHcs]; [reflexivity|].
  cbn [forallb] in Hcs. apply andb_true_iff in Hcs as [Hc Hcs].
  inversion IH as [|c' cs' Pc Pcs]; subst.
  cbn [map]. f_equal; [now apply Pc | now apply IHcs].
Qed.

(** X1. Running text without markup is rendered verbatim: when the
    children of an element are text, comments and elements that no test
    of the inline loop takes, all the way down, its inline rendering is
    its text content, white space included. *)
Theorem inline_plain_text (tag : string) (classes : list string)
        (attrs : list (string * string)) (cs : list Node) :
  forallb plainText cs = true ->
  processInlineContent (Element tag classes attrs cs)
  = textContent (Element tag classes attrs cs).
Proof.
  intros Hcs. cbn [processInlineContent textContent]. f_equal.
  induction cs as [|c cs IH]; [reflexivity|].
  cbn [forallb] in Hcs. apply andb_true_iff in Hcs as [Hc Hcs].
  cbn [map]. f_equal; [now apply plainText_child | now apply IH].
Qed.

Lemma inline_plain_text_witness :
  processInlineContent
    (Samples.elem "P" ["ltx_p"]
       [TextNode "We  study ";
        Samples.elem "SPAN" ["ltx_text"] [TextNode "deep"; CommentNode "x"];
        TextNode " nets."])
  = "We  study deep nets.".
Proof.
  apply (inline_plain_text "P" ["ltx_p"] []
           [TextNode "We  study ";
            Samples.elem "SPAN" ["ltx_text"] [TextNode "deep"; CommentNode "x"];
            TextNode " nets."]).
  reflexivity.
Defined.

(* ================================================================== *)
(** * Footnotes *)
(* ================================================================== *)

Lemma string_length_append (a b : string) :
  String.length (a ++ b) = String.length a + String.length b.
Proof.
  induction a as [|c a IH]; simpl; [reflexivity | now rewrite IH].
Qed.

Lemma substring_length_le (n : nat) (s : string) :
  String.length (substring 0 n s) <= n.
Proof.
  revert s. induction n as [|n IH]; intros [|c s]; simpl; try lia.
  specialize (IH s). lia.
Qed.

Lemma substring_is_prefix (n : nat) (s : string) :
  String.prefix (substring 0 n s) s = true.
Proof.
  revert s. induction n as [|n IH]; intros [|c s]; simpl; try reflexivity.
  destruct (ascii_dec c c) as [_|ne]; [apply IH | now elim ne].
Qed.

Lemma substring_whole (n : nat) (s : string) :
  String.length s <= n -> substring 0 n s = s.
Proof.
  revert s. induction n as [|n IH]; intros [|c s]; simpl; intros H;
    try reflexivity; try lia.
  rewrite IH; [reflexivity | lia].
Qed.

Lemma substring_nonEmpty (n : nat) (s : string) :
  nonEmpty s = true -> nonEmpty (substring 0 (S n) s) = true.
Proof. destruct s; [discriminate | reflexivity]. Qed.

Lemma footnote_branch (self : Node -> string) (note : Node) :
  isFootnote note = true ->
  inlineNode self note
  = if nonEmpty (trim (textContent note))
    then " [^" ++ substring 0 50 (trim (textContent note)) ++ "]" else "".
Proof.
  destruct note as [d|d|tag classes attrs cs]; try discriminate.
  unfold isFootnote, inlineNode. cbv zeta. intros H.
  apply andb_true_iff in H as [H Hnote]. apply negb_true_iff in H.
  repeat match type of H with
         | (_ || _) = false => apply orb_false_iff in H; destruct H as [H ?]
         end.
  repeat match goal with
         | E : _ = false |- _ => rewrite E; clear E
         end.
  cbn [orb]. rewrite Hnote.
  unfold orElse. destruct (nonEmpty (textContent (Element tag classes attrs cs))) eqn:E;
    [reflexivity|].
  apply nonEmpty_false in E. rewrite E. reflexivity.
Qed.

(** X2. A footnote inside running text leaves a marker only, never its
    body: nothing when its text is blank, and otherwise a space, [[^], at
    most the first fifty characters of its trimmed text and [[]]]; the
    marker is never longer than 54 characters, and a footnote of at most
    fifty characters is kept whole. *)
Theorem footnote_marker (self : Node -> string) (note : Node) :
  isFootnote note = true ->
  let t := trim (textContent note) in
  (nonEmpty t = false -> inlineNode self note = "")
  /\ (nonEmpty t = true ->
      inlineNode self note = " [^" ++ substring 0 50 t ++ "]"
      /\ String.prefix (substring 0 50 t) t = true
      /\ nonEmpty (substring 0 50 t) = true)
  /\ (nonEmpty t = true -> String.length t <= 50 ->
      inlineNode self note = " [^" ++ t ++ "]")
  /\ String.length (inlineNode self note) <= 54.
Proof.
  intros Hnote t. pose proof (footnote_branch self note Hnote) as E.
  fold t in E. split; [|split; [|split]].
  - intros Hne. now rewrite E, Hne.
  - intros Hne. rewrite E, Hne. split; [reflexivity|]. split.
    + apply substring_is_prefix.
    + now apply substring_nonEmpty.
  - intros Hne Hlen. rewrite E, Hne. now rewrite substring_whole.
  - rewrite E. destruct (nonEmpty t); [|simpl; lia].
    rewrite !string_length_append.
    pose proof (substring_length_le 50 t). simpl. lia.
Qed.

Lemma footnote_marker_witness :
  inlineNode processInlineContent MoreSamples.footnote
  = " [^1 This footnote is a good deal longer than the fif]"
  /\ String.length (inlineNode processInlineContent MoreSamples.footnote) <= 54.
Proof.
  pose proof (footnote_marker processInlineContent MoreSamples.footnote eq_refl)
    as [_ [Hsome [_ Hlen]]].
  split; [exact (proj1 (Hsome eq_refl)) | exact Hlen].
Defined.

(* ================================================================== *)
(** * Figures *)
(* ================================================================== *)

(** X3. A figure with an image writes the image line first: its
    alternate text is never empty ([Figure] stands in for a missing or
    empty one) and its address never starts with a slash, a site-relative
    source being put under the ar5iv host and any other source kept as it
    is; the caption, when there is one, follows trimmed and in italics. *)
Theorem figure_image (figure img : Node) :
  querySelector figure (AnyOf [byTag "img"]) = Some img ->
  let src := orElse (getAttribute img "src") "" in
  let alt := orElse (getAttribute img "alt") "Figure" in
  let url := if startsWith src "/"
             then "https://ar5iv.labs.arxiv.org" ++ src else src in
  processFigure figure
  = LF ++ "![" ++ alt ++ "](" ++ url ++ ")" ++ LF
       ++ match querySelector figure (AnyOf [byTag "figcaption"]) with
          | Some caption =>
              LF ++ "*" ++ trim (processInlineContent caption) ++ "*" ++ LF
          | None => ""
          end
       ++ LF
  /\ nonEmpty alt = true
  /\ startsWith url "/" = false.
Proof.
  intros Himg src alt url. split; [|split].
  - unfold processFigure. rewrite Himg. fold src alt url. cbv zeta.
    destruct (querySelector figure (AnyOf [byTag "figcaption"]));
      normalise_append.
  - unfold alt, orElse.
    destruct (getAttribute img "alt") as [a|]; [|reflexivity].
    destruct (nonEmpty a) eqn:E; [exact E | reflexivity].
  - unfold url. destruct (startsWith src "/") eqn:E; [reflexivity | exact E].
Qed.

Lemma figure_image_witness :
  processFigure MoreSamples.figure
  = LF ++ "![Figure](https://ar5iv.labs.arxiv.org/html/2512.16906/assets/x1.png)"
       ++ LF ++ LF ++ "*Figure 1: Overview.*" ++ LF ++ LF.
Proof.
  exact (proj1 (figure_image MoreSamples.figure
                  (Element "IMG" ["ltx_graphics"]
                     [("src", "/html/2512.16906/assets/x1.png")] [])
                  eq_refl)).
Defined.

(* ================================================================== *)
(** * Paragraphs, in general *)
(* ================================================================== *)

Lemma nonEmpty_append_l (a b : string) :
  nonEmpty a = true -> nonEmpty (a ++ b) = true.
Proof. destruct a; [discriminate | reflexivity]. Qed.

Lemma appendAll_nonEmpty {A} (f : A -> string) (l : list A) (x : A) :
  In x l -> nonEmpty (f x) = true -> nonEmpty (appendAll (map f l)) = true.
Proof.
  induction l as [|y l IH]; intros Hin Hx; [contradiction|].
  destruct Hin as [->|Hin]; cbn [map appendAll].
  - now apply nonEmpty_append_l.
  - apply nonEmpty_append_r. now apply IH.
Qed.

Lemma appendAll_empty {A} (f : A -> string) (l : list A) :
  appendAll (map f l) = "" -> forall x, In x l -> f x = "".
Proof.
  induction l as [|y l IH]; intros E x Hin; [contradiction|].
  cbn [map appendAll] in E.
  destruct (f y) eqn:Ey; [|discriminate].
  destruct Hin as [<-|Hin]; [exact Ey | now apply IH].
Qed.

Lemma paragraphChild_structured (l : list Node) :
  appendAll (map paragraphChild l)
  = appendAll (map paragraphChild (filter isStructured l)).
Proof.
  induction l as [|c l IH]; [reflexivity|].
  cbn [map appendAll filter]. destruct (isStructured c) eqn:E.
  - cbn [map appendAll]. now rewrite IH.
  - now rewrite (paragraphChild_unstructured c E).
Qed.

Lemma processFigure_nonEmpty (figure : Node) :
  nonEmpty (processFigure figure) = true.
Proof. unfold processFigure. cbv zeta. now apply nonEmpty_append_r. Qed.

Lemma alwaysRendered_nonEmpty (child : Node) :
  alwaysRendered child = true -> nonEmpty (paragraphChild child) = true.
Proof.
  destruct child as [d|d|tagName classes attrs cs]; try discriminate.
  unfold alwaysRendered, paragraphChild. intros H.
  destruct ((tagName =? "P") && contains classes "ltx_p") eqn:Ep.
  - apply nonEmpty_append_r. reflexivity.
  - cbn [orb] in H. apply andb_true_iff in H as [Htag Hc].
    apply String.eqb_eq in Htag. subst tagName. cbn. rewrite Hc.
    apply processFigure_nonEmpty.
Qed.

(** X4. A paragraph container is rendered in one of two ways.  When each
    of its children gives nothing (no structured child, equation tables
    without a formula, tables without rows), it is rendered whole as
    inline content followed by two line ends.  When one child gives
    something, as an inline paragraph or a figure always does, it is
    rendered as its structured children alone, in order: loose text and
    other elements beside them are left out. *)
Theorem paragraph_cases (para : Node) :
  ((forall child, In child (childNodesOf para) -> paragraphChild child = "") ->
   processParagraph para = processInlineContent para ++ LF ++ LF)
  /\ (forall child,
         In child (childNodesOf para) ->
         nonEmpty (paragraphChild child) = true ->
         processParagraph para
         = appendAll (map paragraphChild (filter isStructured (childNodesOf para))))
  /\ (forall child,
         In child (childNodesOf para) -> alwaysRendered child = true ->
         processParagraph para
         = appendAll (map paragraphChild (filter isStructured (childNodesOf para)))).
Proof.
  assert (Hsome : forall child,
             In child (childNodesOf para) ->
             nonEmpty (paragraphChild child) = true ->
             processParagraph para
             = appendAll (map paragraphChild
                              (filter isStructured (childNodesOf para)))).
  { intros child Hin Hne. unfold processParagraph. cbv zeta.
    rewrite (appendAll_nonEmpty paragraphChild _ child Hin Hne). cbn [negb].
    apply paragraphChild_structured. }
  split; [|split].
  - intros Hnone. unfold processParagraph.
    now rewrite (appendAll_nothing paragraphChild _ Hnone).
  - exact Hsome.
  - intros child Hin Halways. apply (Hsome child Hin).
    now apply alwaysRendered_nonEmpty.
Qed.

Lemma paragraph_cases_witness :
  processParagraph MoreSamples.hollowParagraph = "(1)" ++ LF ++ LF
  /\ processParagraph MoreSamples.mixedParagraph = "kept" ++ LF ++ LF.
Proof.
  split.
  - apply (proj1 (paragraph_cases MoreSamples.hollowParagraph)).
    intros child [<-|[]]. reflexivity.
  - apply (proj2 (proj2 (paragraph_cases MoreSamples.mixedParagraph))
             (Samples.elem "P" ["ltx_p"] [TextNode "kept"])).
    + simpl. auto.
    + reflexivity.
Defined.

(* ================================================================== *)
(** * References and the levels that hold them *)
(* ================================================================== *)

Lemma stripBrackets_enclosed (k : string) : stripBrackets ("[" ++ k ++ "]") = k.
Proof.
  unfold stripBrackets.
  change ("[" ++ k ++ "]") with (String "[" (k ++ String "]" "")).
  cbv beta iota. now rewrite splitLast_snoc.
Qed.

Lemma referenceItem_tag (item tagEl : Node) :
  bibTagElement item = Some tagEl ->
  referenceItem item
  = let tag := stripBrackets (trim (textContent tagEl)) in
    if nonEmpty tag
    then "[" ++ tag ++ "] " ++ join " " (bibBlockTexts item) ++ LF ++ LF
    else join " " (bibBlockTexts item) ++ LF ++ LF.
Proof.
  unfold bibTagElement, referenceItem, bibBlockTexts, bibBlocks. cbv zeta.
  intros H.
  destruct (querySelector item (AnyOf [byTagClass "span" "ltx_tag_bibitem"]))
    as [e|]; [injection H as -> | rewrite H]; reflexivity.
Qed.

(** X5. The tag of a bibliography entry is written between one pair of
    brackets whether the page gives it with brackets or without: a tag
    text [[k]] with [k] not empty is written as it is, a tag text that
    the pattern leaves alone is put between brackets, and the tag text
    [[]] is dropped, the entry being its blocks only. *)
Theorem reference_tag_brackets (item tagEl : Node) :
  bibTagElement item = Some tagEl ->
  let t := trim (textContent tagEl) in
  let blocks := join " " (bibBlockTexts item) in
  (forall k, t = "[" ++ k ++ "]" -> nonEmpty k = true ->
             referenceItem item = t ++ " " ++ blocks ++ LF ++ LF)
  /\ (stripBrackets t = t -> nonEmpty t = true ->
      referenceItem item = "[" ++ t ++ "] " ++ blocks ++ LF ++ LF)
  /\ (t = "[]" -> referenceItem item = blocks ++ LF ++ LF).
Proof.
  intros Htag t blocks. rewrite (referenceItem_tag item tagEl Htag). fold t.
  cbv zeta. split; [|split].
  - intros k Ht Hk. rewrite Ht, stripBrackets_enclosed, Hk.
    unfold blocks. normalise_append.
  - intros Hsame Hne. now rewrite Hsame, Hne.
  - intros Ht. now rewrite Ht.
Qed.

Lemma reference_tag_brackets_witness :
  referenceItem MoreSamples.bibitem = "[12] A. Author. A title." ++ LF ++ LF.
Proof.
  apply (proj1 (reference_tag_brackets MoreSamples.bibitem
                  (Samples.elem "SPAN" ["ltx_tag"; "ltx_tag_bibitem"]
                     [TextNode "[12]"])
                  eq_refl) "12");
    reflexivity.
Defined.

Lemma append_eq_self (a b : string) : a = a ++ b -> b = "".
Proof.
  intros E. apply (f_equal String.length) in E.
  rewrite string_length_append in E.
  destruct b; [reflexivity | simpl in E; lia].
Qed.

Lemma append_empty (a b : string) : a ++ b = "" -> a = "" /\ b = "".
Proof. destruct a; simpl; intros E; [now split | discriminate]. Qed.

Lemma extractReferences_empty (doc : Document) :
  extractReferences doc = "" <-> docQuerySelector doc bibliography = None.
Proof.
  unfold extractReferences, bibliography.
  destruct (docQuerySelector doc (AnyOf [byTagClass "section" "ltx_bibliography"]))
    as [bib|]; [|tauto].
  split; [|discriminate].
  destruct (querySelector bib (AnyOf [byTagClass "ul" "ltx_biblist"]));
    discriminate.
Qed.

(** X6. The [all] level gives the same text as the [body] level exactly
    when the page has no bibliography section and no appendix text: a
    bibliography section, even an empty one, adds at least the references
    heading. *)
Theorem all_is_body_without_back_matter (doc : Document) :
  assembleMarkdown doc "all" = assembleMarkdown doc "body"
  <-> docQuerySelector doc bibliography = None /\ extractAppendix doc = "".
Proof.
  assert (E : assembleMarkdown doc "all"
              = assembleMarkdown doc "body"
                ++ extractReferences doc ++ appendixBlock doc).
  { rewrite assemble_all, assemble_body. normalise_append. }
  rewrite E. split.
  - intros H. symmetry in H. apply append_eq_self, append_empty in H as [Hr Ha].
    split; [now apply extractReferences_empty|].
    unfold appendixBlock in Ha.
    destruct (nonEmpty (extractAppendix doc)) eqn:Hne; [discriminate|].
    now apply nonEmpty_false.
  - intros [Hbib Happ].
    apply extractReferences_empty in Hbib. unfold appendixBlock.
    rewrite Hbib, Happ. cbn. now rewrite append_empty_r.
Qed.

Lemma all_is_body_without_back_matter_witness :
  assembleMarkdown Samples.bare "all" = assembleMarkdown Samples.bare "body".
Proof.
  apply (proj2 (all_is_body_without_back_matter Samples.bare)).
  split; reflexivity.
Defined.

(** X7. A part that is none of [abstract], [body] and [appendix], in
    this exact spelling, is taken for [all]. *)
Theorem unnamed_part_is_all (doc : Document) (part : string) :
  part <> "abstract" -> part <> "body" -> part <> "appendix" ->
  assembleMarkdown doc part = assembleMarkdown doc "all".
Proof.
  intros Ha Hb Hc. rewrite assemble_all.
  apply assemble_default; now apply String.eqb_neq.
Qed.

Lemma unnamed_part_is_all_witness :
  assembleMarkdown Samples.paper "Body" = assembleMarkdown Samples.paper "all".
Proof.
  apply (unnamed_part_is_all Samples.paper "Body"); discriminate.
Defined.

(* ================================================================== *)
(** * The author list *)
(* ================================================================== *)

Lemma collapse_singleSpaced (b : bool) (s : string) :
  singleSpaced b (collapseSpaces b s) = true.
Proof.
  revert b. induction s as [|c s IH]; intros b; [reflexivity|].
  cbn [collapseSpaces]. destruct (isSpace c) eqn:Ec.
  - destruct b; [apply IH|].
    cbn [singleSpaced]. change (isSpace " ") with true. cbv iota.
    now rewrite IH.
  - cbn [singleSpaced]. rewrite Ec. apply IH.
Qed.

Lemma singleSpaced_occurs (b : bool) (s : string) (c : ascii) :
  singleSpaced b s = true -> isSpace c = true -> Ascii.eqb c " " = false ->
  occurs c s = false.
Proof.
  intros Hs Hc Hne. revert b Hs.
  induction s as [|d s IH]; intros b Hs; [reflexivity|].
  cbn [singleSpaced] in Hs. cbn [occurs].
  destruct (Ascii.eqb_spec d c) as [->|ne].
  - rewrite Hc, Hne in Hs. discriminate.
  - cbn [orb]. destruct (isSpace d).
    + apply andb_true_iff in Hs as [_ Hs]. now apply (IH true).
    + now apply (IH false).
Qed.

Lemma trimStart_startsClean (s : string) : startsClean (trimStart s) = true.
Proof.
  induction s as [|c s IH]; [reflexivity|].
  cbn [trimStart]. destruct (isSpace c) eqn:Ec; [exact IH|].
  cbn [startsClean]. now rewrite Ec.
Qed.

Lemma trimEnd_startsClean (s : string) :
  startsClean s = true -> startsClean (trimEnd s) = true.
Proof.
  destruct s as [|c s]; [reflexivity|].
  cbn [startsClean trimEnd]. intros Hc. apply negb_true_iff in Hc.
  rewrite Hc. cbn [andb startsClean]. now rewrite Hc.
Qed.

Lemma splitLast_nonEmpty (s : string) :
  nonEmpty s = true -> exists i l, splitLast s = Some (i, l).
Proof.
  destruct s as [|c s]; [discriminate|]. intros _. cbn [splitLast].
  destruct (splitLast s) as [[i l]|]; eauto.
Qed.

Lemma endsClean_cons (c : ascii) (s : string) :
  nonEmpty s = true -> endsClean (String c s) = endsClean s.
Proof.
  intros H. destruct (splitLast_nonEmpty s H) as [i [l E]].
  unfold endsClean. cbn [splitLast]. now rewrite E.
Qed.

Lemma trimEnd_endsClean (s : string) : endsClean (trimEnd s) = true.
Proof.
  induction s as [|c s IH]; [reflexivity|].
  cbn [trimEnd]. destruct (nonEmpty (trimEnd s)) eqn:Hne.
  - rewrite andb_false_r. now rewrite endsClean_cons.
  - rewrite andb_true_r. destruct (isSpace c) eqn:Ec; [reflexivity|].
    apply nonEmpty_false in Hne. rewrite Hne.
    unfold endsClean. cbn. now rewrite Ec.
Qed.

Lemma collapse_startsClean (s : string) :
  startsClean s = true -> startsClean (collapseSpaces false s) = true.
Proof.
  destruct s as [|c s]; [reflexivity|].
  cbn [startsClean collapseSpaces]. intros Hc. apply negb_true_iff in Hc.
  rewrite Hc. cbn [startsClean]. now rewrite Hc.
Qed.

Lemma collapse_endsClean (b : bool) (s : string) :
  nonEmpty s = true -> endsClean s = true ->
  nonEmpty (collapseSpaces b s) = true
  /\ endsClean (collapseSpaces b s) = true.
Proof.
  revert b. induction s as [|c s IH]; intros b Hne Hend; [discriminate|].
  destruct (nonEmpty s) eqn:Hs.
  - rewrite (endsClean_cons c s Hs) in Hend.
    cbn [collapseSpaces].
    destruct (isSpace c); [destruct b|].
    + now apply IH.
    + destruct (IH true eq_refl Hend) as [N E].
      split; [reflexivity | now rewrite endsClean_cons].
    + destruct (IH false eq_refl Hend) as [N E].
      split; [reflexivity | now rewrite endsClean_cons].
  - apply nonEmpty_false in Hs. subst s.
    unfold endsClean in Hend. cbn in Hend. apply negb_true_iff in Hend.
    cbn [collapseSpaces]. rewrite Hend. split; [reflexivity|].
    unfold endsClean. cbn. now rewrite Hend.
Qed.

(** X8. The author list is one line in normal form: every white space
    in it is a single space character, so that it holds no line end and
    no tab, no two spaces are adjacent, and it neither starts nor ends
    with a space. *)
Theorem authors_normal_form (doc : Document) :
  singleSpaced false (extractAuthors doc) = true
  /\ startsClean (extractAuthors doc) = true
  /\ endsClean (extractAuthors doc) = true
  /\ (forall c, isSpace c = true -> Ascii.eqb c " " = false ->
                occurs c (extractAuthors doc) = false).
Proof.
  assert (Hsingle : singleSpaced false (extractAuthors doc) = true).
  { unfold extractAuthors.
    destruct (docQuerySelector doc (AnyOf [byClass "ltx_authors"]));
      [apply collapse_singleSpaced | reflexivity]. }
  split; [exact Hsingle|]. split; [|split].
  - unfold extractAuthors.
    destruct (docQuerySelector doc (AnyOf [byClass "ltx_authors"]));
      [|reflexivity].
    apply collapse_startsClean. unfold trim.
    apply trimEnd_startsClean, trimStart_startsClean.
  - unfold extractAuthors.
    destruct (docQuerySelector doc (AnyOf [byClass "ltx_authors"])) as [el|];
      [|reflexivity].
    destruct (nonEmpty (trim (processInlineContent el))) eqn:Hne.
    + apply collapse_endsClean; [exact Hne|]. apply trimEnd_endsClean.
    + apply nonEmpty_false in Hne. now rewrite Hne.
  - intros c Hc Hne. now apply (singleSpaced_occurs false).
Qed.

Lemma authors_normal_form_witness :
  occurs lineFeed (extractAuthors MoreSamples.byline) = false.
Proof.
  apply (proj2 (proj2 (proj2 (authors_normal_form MoreSamples.byline))));
    reflexivity.
Defined.

Example authors_on_one_line :
  extractAuthors MoreSamples.byline = "Ada Lovelace Alan Turing".
Proof. reflexivity. Qed.

(* ================================================================== *)
(** * The fetch, all its ways *)
(* ================================================================== *)

Lemma fetchAr5iv_cases (net : Network) (arxivId : string) (log : list Request) :
  fetchAr5iv net arxivId log
  = match net log (ar5ivRequest arxivId) with
    | inr message => (Thrown message, (log ++ [ar5ivRequest arxivId])%list)
    | inl r1 =>
        if (status r1 =? 307)%nat then
          match net (log ++ [ar5ivRequest arxivId])%list (arxivRequest arxivId) with
          | inr message =>
              (Thrown message,
               (log ++ [ar5ivRequest arxivId; arxivRequest arxivId])%list)
          | inl r2 =>
              (if ok r2 then Returned (text r2)
               else Thrown (notAvailable (status r2)),
               (log ++ [ar5ivRequest arxivId; arxivRequest arxivId])%list)
          end
        else
          (if ok r1 then Returned (text r1)
           else Thrown (failedToFetch (url (ar5ivRequest arxivId)) (status r1)),
           (log ++ [ar5ivRequest arxivId])%list)
    end.
Proof.
  unfold fetchAr5iv, bind, fetch.
  destruct (net log (ar5ivRequest arxivId)) as [r1|message]; [|reflexivity].
  cbv beta iota. destruct (status r1 =? 307)%nat.
  - change [ar5ivRequest arxivId; arxivRequest arxivId]
      with ([ar5ivRequest arxivId] ++ [arxivRequest arxivId])%list.
    rewrite app_assoc.
    destruct (net (log ++ [ar5ivRequest arxivId])%list (arxivRequest arxivId))
      as [r2|message]; [destruct (ok r2)|]; reflexivity.
  - destruct (ok r1); reflexivity.
Qed.

(** X9. A text that [fetchAr5iv] returns is the text of an [ok] answer:
    that of ar5iv to the first request, or that of arxiv.org to the second
    request after ar5iv answered 307.  The text of an answer that is not
    [ok] is never returned. *)
Theorem fetch_returns_ok_text (net : Network) (arxivId : string)
        (log : list Request) (html : string) :
  fst (fetchAr5iv net arxivId log) = Returned html ->
  exists r,
    ok r = true /\ text r = html
    /\ (net log (ar5ivRequest arxivId) = inl r
        \/ exists r1,
            net log (ar5ivRequest arxivId) = inl r1 /\ status r1 = 307
            /\ net (log ++ [ar5ivRequest arxivId])%list (arxivRequest arxivId)
               = inl r).
Proof.
  rewrite fetchAr5iv_cases.
  destruct (net log (ar5ivRequest arxivId)) as [r1|message] eqn:H1;
    [|discriminate].
  destruct (Nat.eqb_spec (status r1) 307) as [E|_].
  - destruct (net (log ++ [ar5ivRequest arxivId])%list (arxivRequest arxivId))
      as [r2|message] eqn:H2; [|discriminate].
    destruct (ok r2) eqn:Hok; [|discriminate].
    cbn [fst]. intros H. injection H as <-.
    exists r2. split; [exact Hok|]. split; [reflexivity|].
    right. now exists r1.
  - destruct (ok r1) eqn:Hok; [|discriminate].
    cbn [fst]. intros H. injection H as <-.
    exists r1. split; [exact Hok|]. split; [reflexivity|]. now left.
Qed.

Lemma fetch_returns_ok_text_witness :
  exists r,
    ok r = true /\ text r = Samples.page
    /\ (Samples.redirected [] (ar5ivRequest "2512.16906") = inl r
        \/ exists r1,
            Samples.redirected [] (ar5ivRequest "2512.16906") = inl r1
            /\ status r1 = 307
            /\ Samples.redirected ([] ++ [ar5ivRequest "2512.16906"])%list
                 (arxivRequest "2512.16906") = inl r).
Proof.
  apply (fetch_returns_ok_text Samples.redirected "2512.16906" [] Samples.page).
  reflexivity.
Defined.

(** X10. Only a 307 from ar5iv leads to arxiv.org.  When the request to
    ar5iv is rejected, the fetch throws the message of the rejection; when
    ar5iv answers another status that is not [ok], a 404, a 500 or
    another redirection, the fetch throws [Failed to fetch], the address
    and the status; in both cases the request to ar5iv is the only one. *)
Theorem fetch_fails_without_fallback (net : Network) (arxivId : string)
        (log : list Request) :
  (forall message,
      net log (ar5ivRequest arxivId) = inr message ->
      fetchAr5iv net arxivId log
      = (Thrown message, (log ++ [ar5ivRequest arxivId])%list))
  /\ (forall r1,
         net log (ar5ivRequest arxivId) = inl r1 ->
         status r1 <> 307 -> ok r1 = false ->
         fetchAr5iv net arxivId log
         = (Thrown ("Failed to fetch " ++ AR5IV_BASE ++ arxivId ++ ": "
                      ++ ofNat (status r1)),
            (log ++ [ar5ivRequest arxivId])%list)).
Proof.
  split.
  - intros message H. now rewrite fetchAr5iv_cases, H.
  - intros r1 H Hnot Hok. rewrite fetchAr5iv_cases, H, Hok.
    destruct (Nat.eqb_spec (status r1) 307) as [E|_]; [contradiction|].
    reflexivity.
Qed.

Lemma fetch_fails_without_fallback_witness :
  fetchAr5iv MoreSamples.offline "2512.16906" []
  = (Thrown "fetch failed", [ar5ivRequest "2512.16906"])
  /\ fetchAr5iv MoreSamples.absent "2512.16906" []
     = (Thrown "Failed to fetch https://ar5iv.labs.arxiv.org/html/2512.16906: 404",
        [ar5ivRequest "2512.16906"]).
Proof.
  split.
  - apply (proj1 (fetch_fails_without_fallback MoreSamples.offline "2512.16906" [])).
    reflexivity.
  - apply (proj2 (fetch_fails_without_fallback MoreSamples.absent "2512.16906" [])
             {| status := 404; text := "Not Found" |});
      [reflexivity | discriminate | reflexivity].
Defined.

(* ================================================================== *)
(** * The command line *)
(* ================================================================== *)

Lemma includes_In (l : list string) (x : string) :
  includes l x = true <-> In x l.
Proof.
  unfold includes. rewrite existsb_exists. split.
  - intros [y [Hin E]]. apply String.eqb_eq in E. now subst y.
  - intros Hin. exists x. split; [exact Hin | apply String.eqb_refl].
Qed.

Lemma includes_not_In (l : list string) (x : string) :
  ~ In x l -> includes l x = false.
Proof.
  intros H. destruct (includes l x) eqn:E; [|reflexivity].
  now apply includes_In in E.
Qed.

Lemma convert_cases (net : Network) (parseHTML : string -> Document)
      (arxivId part : string) (log : list Request) :
  convertAr5ivToMarkdown net parseHTML arxivId part log
  = match fetchAr5iv net arxivId log with
    | (Returned html, log') =>
        (Returned (assembleMarkdown (parseHTML html) part), log')
    | (Thrown message, log') => (Thrown message, log')
    end.
Proof.
  unfold convertAr5ivToMarkdown, bind, ret.
  now destruct (fetchAr5iv net arxivId log) as [[html|message] log'].
Qed.

(** X11. [main] contacts no mirror unless it is given an identifier, no
    help flag and a part it knows: without arguments, or with [--help] or
    [-h] anywhere among them, it prints the usage text and exits with 0;
    otherwise, when the part it takes, the second argument or [all] when
    that is missing or empty, is not one of the four parts, it complains,
    naming the part and the four, and exits with 1. *)
Theorem main_gate (net : Network) (parseHTML : string -> Document)
        (args : list string) (log : list Request) :
  (args = [] \/ In "--help" args \/ In "-h" args ->
   main net parseHTML args log = (Returned ([Logged usage], Some 0), log))
  /\ (let part := orElse (nth_error args 1) "all" in
      ~ In "--help" args -> ~ In "-h" args ->
      ~ In part validParts ->
      main net parseHTML args log
      = (Returned
           ([Complained ("Error: Invalid part " ++ doubleQuote ++ part
                           ++ doubleQuote
                           ++ ". Must be one of: all, abstract, body, appendix")],
            Some 1),
         log)).
Proof.
  split.
  - intros H. unfold main.
    assert (E : (List.length args =? 0)%nat || includes args "--help"
                || includes args "-h" = true).
    { destruct H as [->|[H|H]]; [reflexivity| |].
      - apply includes_In in H. rewrite H. now rewrite orb_true_r.
      - apply includes_In in H. rewrite H. now rewrite orb_true_r. }
    now rewrite E.
  - intros part Hhelp Hh Hvalid. subst part. unfold main.
    rewrite (includes_not_In _ _ Hhelp), (includes_not_In _ _ Hh).
    destruct args as [|arxivId rest].
    { elim Hvalid. simpl. auto. }
    cbn [List.length Nat.eqb orb]. cbv zeta.
    pose proof (includes_not_In validParts _ Hvalid) as F.
    rewrite F. reflexivity.
Qed.

Lemma main_gate_witness :
  main Samples.served (fun _ => Samples.paper) ["2512.16906"; "--help"] []
  = (Returned ([Logged usage], Some 0), [])
  /\ main Samples.served (fun _ => Samples.paper) ["2512.16906"; "references"] []
     = (Returned
          ([Complained ("Error: Invalid part " ++ doubleQuote ++ "references"
                          ++ doubleQuote
                          ++ ". Must be one of: all, abstract, body, appendix")],
           Some 1),
        []).
Proof.
  split.
  - apply (proj1 (main_gate Samples.served (fun _ => Samples.paper)
                    ["2512.16906"; "--help"] [])).
    right. left. simpl. auto.
  - apply (proj2 (main_gate Samples.served (fun _ => Samples.paper)
                    ["2512.16906"; "references"] [])).
    + simpl. intros [H|[H|[]]]; discriminate.
    + simpl. intros [H|[H|[]]]; discriminate.
    + simpl. intros [H|[H|[H|[H|[]]]]]; discriminate.
Defined.

(** X12. With an identifier, no help flag and a part it knows, [all]
    when the second argument is missing or empty, [main] fetches the page
    of the identifier once and prints the Markdown of the part, without
    calling [exit]; when the fetch throws it prints [Error: ] and the
    message on the error stream and exits with 1.  It never throws. *)
Theorem main_converts (net : Network) (parseHTML : string -> Document)
        (arxivId : string) (rest : list string) (log : list Request) :
  ~ In "--help" (arxivId :: rest) -> ~ In "-h" (arxivId :: rest) ->
  let part := orElse (nth_error rest 0) "all" in
  In part validParts ->
  main net parseHTML (arxivId :: rest) log
  = match fetchAr5iv net arxivId log with
    | (Returned html, log') =>
        (Returned ([Logged (assembleMarkdown (parseHTML html) part)], None), log')
    | (Thrown message, log') =>
        (Returned ([Complained ("Error: " ++ message)], Some 1), log')
    end.
Proof.
  intros Hhelp Hh part Hvalid. subst part. unfold main.
  rewrite (includes_not_In _ _ Hhelp), (includes_not_In _ _ Hh).
  cbn [List.length Nat.eqb orb nth]. cbv zeta.
  change (nth_error (arxivId :: rest) 1) with (nth_error rest 0).
  apply includes_In in Hvalid. rewrite Hvalid. cbn [negb].
  unfold tryCatch, bind, ret. rewrite convert_cases.
  now destruct (fetchAr5iv net arxivId log) as [[html|message] log'].
Qed.

Lemma main_converts_witness :
  main Samples.served (fun _ => Samples.bare) ["2512.16906"] []
  = (Returned ([Logged (assembleMarkdown Samples.bare "all")], None),
     [ar5ivRequest "2512.16906"])
  /\ main Samples.missing (fun _ => Samples.bare) ["2512.16906"; "body"] []
     = (Returned ([Complained ("Error: " ++ notAvailable 404)], Some 1),
        [ar5ivRequest "2512.16906"; arxivRequest "2512.16906"]).
Proof.
  split.
  - apply (main_converts Samples.served (fun _ => Samples.bare) "2512.16906" [] []).
    + simpl. intros [H|[]]; discriminate.
    + simpl. intros [H|[]]; discriminate.
    + simpl. auto.
  - apply (main_converts Samples.missing (fun _ => Samples.bare)
             "2512.16906" ["body"] []).
    + simpl. intros [H|[H|[]]]; discriminate.
    + simpl. intros [H|[H|[]]]; discriminate.
    + simpl. auto.
Defined.

(* ================================================================== *)
(** * The extract-paper tool *)
(* ================================================================== *)

Lemma dropPrefixIgnoreCase_same (pattern p s : string) :
  canonical p = canonical pattern ->
  dropPrefixIgnoreCase pattern (p ++ s) = Some s.
Proof.
  revert p. induction pattern as [|c pattern IH]; intros [|d p] E;
    try discriminate; [reflexivity|].
  cbn [canonical] in E. injection E as Ec E.
  cbn [append dropPrefixIgnoreCase]. rewrite Ec, Ascii.eqb_refl.
  now apply IH.
Qed.

Lemma extractPaper_cases (net : Network) (parseHTML : string -> Document)
      (arxivId level : string) (log : list Request) :
  extractPaper net parseHTML arxivId level log
  = match fetchAr5iv net (normalizeId arxivId) log with
    | (Returned html, log') =>
        (Returned {| content := assembleMarkdown (parseHTML html) level;
                     isError := false |}, log')
    | (Thrown message, log') =>
        (Returned {| content := "Error fetching paper: " ++ message;
                     isError := true |}, log')
    end.
Proof.
  unfold extractPaper, tryCatch, bind, ret. cbv zeta. rewrite convert_cases.
  now destruct (fetchAr5iv net (normalizeId arxivId) log) as [[html|message] log'].
Qed.

(** X13. The tool takes the identifier with the prefix [arxiv:] in any
    letter case or without it: the prefix is removed once, and an
    identifier that carries none gives the same requests and the same
    result with the prefix as without. *)
Theorem extractPaper_prefix (net : Network) (parseHTML : string -> Document)
        (prefix_ arxivId level : string) (log : list Request) :
  canonical prefix_ = "ARXIV:" ->
  normalizeId (prefix_ ++ arxivId) = arxivId
  /\ (normalizeId arxivId = arxivId ->
      extractPaper net parseHTML (prefix_ ++ arxivId) level log
      = extractPaper net parseHTML arxivId level log).
Proof.
  intros Hp.
  assert (E : normalizeId (prefix_ ++ arxivId) = arxivId).
  { unfold normalizeId. now rewrite (dropPrefixIgnoreCase_same "arxiv:"). }
  split; [exact E|].
  intros Hplain. now rewrite !extractPaper_cases, E, Hplain.
Qed.

Lemma extractPaper_prefix_witness :
  normalizeId ("arXiv:" ++ "1706.03762") = "1706.03762"
  /\ extractPaper Samples.served (fun _ => Samples.paper)
       ("arXiv:" ++ "1706.03762") "body" []
     = extractPaper Samples.served (fun _ => Samples.paper) "1706.03762" "body" [].
Proof.
  pose proof (extractPaper_prefix Samples.served (fun _ => Samples.paper)
                "arXiv:" "1706.03762" "body" [] eq_refl) as [Hid Hsame].
  split; [exact Hid | apply Hsame; reflexivity].
Defined.

(** X14. The tool never throws: it always returns a result, having
    issued the requests of the fetch of the normalised identifier.  The
    result is the Markdown of the level without the error flag when the
    fetch returns, and [Error fetching paper: ] with the message of the
    fetch under the error flag when it throws; the flag is set exactly in
    that case. *)
Theorem extractPaper_total (net : Network) (parseHTML : string -> Document)
        (arxivId level : string) (log : list Request) :
  exists result,
    extractPaper net parseHTML arxivId level log
    = (Returned result, snd (fetchAr5iv net (normalizeId arxivId) log))
    /\ (forall html,
           fst (fetchAr5iv net (normalizeId arxivId) log) = Returned html ->
           result = {| content := assembleMarkdown (parseHTML html) level;
                       isError := false |})
    /\ (forall message,
           fst (fetchAr5iv net (normalizeId arxivId) log) = Thrown message ->
           result = {| content := "Error fetching paper: " ++ message;
                       isError := true |})
    /\ (isError result = true
        <-> exists message,
            fst (fetchAr5iv net (normalizeId arxivId) log) = Thrown message).
Proof.
  rewrite extractPaper_cases.
  destruct (fetchAr5iv net (normalizeId arxivId) log) as [[html|message] log'];
    eexists; (split; [reflexivity|]); cbn [fst snd isError].
  - split; [|split; [|split]].
    + intros h H. now injection H as <-.
    + discriminate.
    + discriminate.
    + intros [m H]. discriminate.
  - split; [|split; [|split]].
    + discriminate.
    + intros m H. now injection H as <-.
    + intros _. now exists message.
    + reflexivity.
Qed.

Lemma extractPaper_total_witness :
  extractPaper Samples.missing (fun _ => Samples.paper) "arxiv:2512.16906" "body" []
  = (Returned {| content := "Error fetching paper: " ++ notAvailable 404;
                 isError := true |},
     [ar5ivRequest "2512.16906"; arxivRequest "2512.16906"]).
Proof.
  destruct (extractPaper_total Samples.missing (fun _ => Samples.paper)
              "arxiv:2512.16906" "body" []) as [result [E [_ [Hthrown _]]]].
  rewrite E. rewrite (Hthrown (notAvailable 404) eq_refl). reflexivity.
Defined.

(* ================================================================== *)
(** * The search *)
(* ================================================================== *)

Module SearchFacts.
Import ArxivSearch.

Lemma hasFieldPrefix_all (query : string) : hasFieldPrefix ("all:" ++ query) = true.
Proof.
  unfold hasFieldPrefix. apply existsb_exists. exists "all".
  split; [simpl; tauto|].
  unfold startsWith. apply (prefix_append "all:" query).
Qed.

(** X15. The query that is sent always carries a field prefix: a query
    that starts with one of the nine field names and a colon is sent as it
    is, any other query is sent after [all:]; preparing a prepared query
    changes nothing. *)
Theorem search_query_prefixed (query : string) :
  hasFieldPrefix (searchQueryOf query) = true
  /\ (hasFieldPrefix query = true -> searchQueryOf query = query)
  /\ (hasFieldPrefix query = false -> searchQueryOf query = "all:" ++ query)
  /\ searchQueryOf (searchQueryOf query) = searchQueryOf query.
Proof.
  assert (H : hasFieldPrefix (searchQueryOf query) = true).
  { unfold searchQueryOf. destruct (hasFieldPrefix query) eqn:E;
      [exact E | apply hasFieldPrefix_all]. }
  split; [exact H|]. split; [|split].
  - intros E. unfold searchQueryOf. now rewrite E.
  - intros E. unfold searchQueryOf. now rewrite E.
  - unfold searchQueryOf at 1. now rewrite H.
Qed.

Lemma search_query_prefixed_witness :
  searchQueryOf "au:Vaswani" = "au:Vaswani"
  /\ searchQueryOf "title:attention" = "all:title:attention".
Proof.
  split.
  - apply (proj1 (proj2 (search_query_prefixed "au:Vaswani"))). reflexivity.
  - apply (proj1 (proj2 (proj2 (search_query_prefixed "title:attention")))).
    reflexivity.
Defined.

Lemma allChars_append (p : ascii -> bool) (a b : string) :
  allChars p (a ++ b) = allChars p a && allChars p b.
Proof.
  induction a as [|c a IH]; simpl; [reflexivity|].
  now rewrite IH, andb_assoc.
Qed.

Lemma encodeChar_safe (c : ascii) : allChars urlSafe (encodeChar c) = true.
Proof. destruct c as [[] [] [] [] [] [] [] []]; reflexivity. Qed.

Lemma formEncode_safe (s : string) : allChars urlSafe (formEncode s) = true.
Proof.
  induction s as [|c s IH]; [reflexivity|].
  cbn [formEncode]. now rewrite allChars_append, encodeChar_safe, IH.
Qed.

Lemma allChars_occurs (p : ascii -> bool) (s : string) (c : ascii) :
  allChars p s = true -> p c = false -> occurs c s = false.
Proof.
  intros Hs Hc. induction s as [|d s IH]; [reflexivity|].
  cbn [allChars] in Hs. apply andb_true_iff in Hs as [Hd Hs].
  cbn [occurs]. destruct (Ascii.eqb_spec d c) as [->|_].
  - rewrite Hc in Hd. discriminate.
  - now apply IH.
Qed.

(** X16. The address of the search request is the API address, the
    encoded query as [search_query] and the four fixed parameters after
    it.  The encoded query is made of letters, digits and the characters
    [*-._+%] only: no ampersand, equals sign, hash or space of the query
    reaches the address, so that the query cannot add or change a
    parameter. *)
Theorem search_request_address (query : string) :
  url (searchRequest query)
  = ARXIV_API ++ "?search_query=" ++ formEncode (searchQueryOf query)
    ++ "&start=0&max_results=5&sortBy=relevance&sortOrder=descending"
  /\ allChars urlSafe (formEncode (searchQueryOf query)) = true
  /\ (forall c, urlSafe c = false ->
                occurs c (formEncode (searchQueryOf query)) = false).
Proof.
  split; [|split].
  - unfold searchRequest, searchParams. cbn [url map fst snd join String.concat].
    change (formEncode "search_query") with "search_query".
    change (formEncode (ofNat 0)) with "0".
    change (formEncode (ofNat MAX_RESULTS)) with "5".
    change (formEncode "start") with "start".
    change (formEncode "max_results") with "max_results".
    change (formEncode "sortBy") with "sortBy".
    change (formEncode "relevance") with "relevance".
    change (formEncode "sortOrder") with "sortOrder".
    change (formEncode "descending") with "descending".
    normalise_append.
  - apply formEncode_safe.
  - intros c Hc. apply (allChars_occurs urlSafe); [apply formEncode_safe | exact Hc].
Qed.

Lemma search_request_address_witness :
  occurs "&" (formEncode (searchQueryOf "a&max_results=100")) = false.
Proof.
  apply (proj2 (proj2 (search_request_address "a&max_results=100"))).
  reflexivity.
Defined.

Example search_request_encoded :
  url (searchRequest "a&max_results=100")
  = "https://export.arxiv.org/api/query?search_query=all%3Aa%26max_results%3D100&start=0&max_results=5&sortBy=relevance&sortOrder=descending".
Proof. reflexivity. Qed.


(** ** Matching *)

Lemma dropPrefix_sound (literal s rest : string) :
  dropPrefix literal s = Some rest -> s = literal ++ rest.
Proof.
  revert s. induction literal as [|l literal IH]; intros s H.
  - now injection H as ->.
  - destruct s as [|c s]; [discriminate|]. cbn [dropPrefix] in H.
    destruct (Ascii.eqb_spec c l) as [->|_]; [|discriminate].
    cbn [append]. f_equal. now apply IH.
Qed.

Lemma dropPrefix_append (literal rest : string) :
  dropPrefix literal (literal ++ rest) = Some rest.
Proof.
  induction literal as [|l literal IH]; [reflexivity|].
  cbn [append dropPrefix]. now rewrite Ascii.eqb_refl.
Qed.

Lemma find_eq (literal s : string) :
  find literal s
  = match dropPrefix literal s with
    | Some rest => Some ("", rest)
    | None =>
        match s with
        | EmptyString => None
        | String c r =>
            match find literal r with
            | Some (before, after) => Some (String c before, after)
            | None => None
            end
        end
    end.
Proof. destruct s; reflexivity. Qed.

Lemma find_sound (literal s before after : string) :
  find literal s = Some (before, after) -> s = before ++ literal ++ after.
Proof.
  revert before. induction s as [|c s IH]; intros before H;
    rewrite find_eq in H.
  - destruct (dropPrefix literal "") as [rest|] eqn:E; [|discriminate].
    injection H as <- <-. exact (dropPrefix_sound _ _ _ E).
  - destruct (dropPrefix literal (String c s)) as [rest|] eqn:E.
    + injection H as <- <-. exact (dropPrefix_sound _ _ _ E).
    + destruct (find literal s) as [[b a]|]; [|discriminate].
      injection H as <- <-. cbn [append]. f_equal. now apply IH.
Qed.

(** The occurrence that [find] gives is the first one. *)
Lemma find_leftmost (literal b1 x : string) :
  exists b' a',
    find literal (b1 ++ literal ++ x) = Some (b', a')
    /\ String.length b' <= String.length b1.
Proof.
  induction b1 as [|c b1 IH]; rewrite find_eq.
  - cbn [append]. rewrite dropPrefix_append. exists "", x. split; [reflexivity|].
    apply Nat.le_refl.
  - destruct (dropPrefix literal (String c b1 ++ literal ++ x)) as [rest|].
    + exists "", rest. split; [reflexivity | simpl; lia].
    + cbn [append]. destruct IH as [b' [a' [E Hlen]]]. rewrite E.
      exists (String c b'), a'. split; [reflexivity | simpl; lia].
Qed.

Lemma find_first (literal s before after : string) :
  find literal s = Some (before, after) -> nonEmpty literal = true ->
  forall b1 b2, before <> b1 ++ literal ++ b2.
Proof.
  intros H Hne b1 b2 E.
  pose proof (find_sound _ _ _ _ H) as Hs. rewrite E in Hs.
  rewrite !append_assoc in Hs.
  destruct (find_leftmost literal b1 (b2 ++ literal ++ after))
    as [b' [a' [E' Hlen]]].
  rewrite <- Hs, H in E'. injection E' as <- <-.
  rewrite E, !string_length_append in Hlen.
  destruct literal; [discriminate | simpl in Hlen; lia].
Qed.

Lemma occurs_split (c : ascii) (s : string) :
  occurs c s = true -> exists b1 b2, s = b1 ++ String c b2.
Proof.
  induction s as [|d s IH]; [discriminate|]. cbn [occurs].
  destruct (Ascii.eqb_spec d c) as [->|_].
  - intros _. now exists "", s.
  - cbn [orb]. intros H. destruct (IH H) as [b1 [b2 ->]].
    now exists (String d b1), b2.
Qed.

Lemma firstMatch_eq {A} (matchAt : string -> option A) (s : string) :
  firstMatch matchAt s
  = match matchAt s with
    | Some x => Some x
    | None =>
        match s with
        | EmptyString => None
        | String _ r => firstMatch matchAt r
        end
    end.
Proof. destruct s; reflexivity. Qed.

Lemma firstMatch_sound {A} (matchAt : string -> option A) (s : string) (x : A) :
  firstMatch matchAt s = Some x ->
  exists before from_, s = before ++ from_ /\ matchAt from_ = Some x.
Proof.
  induction s as [|c s IH]; rewrite firstMatch_eq; intros H.
  - destruct (matchAt "") eqn:E; [|discriminate]. injection H as ->.
    now exists "", "".
  - destruct (matchAt (String c s)) eqn:E.
    + injection H as ->. now exists "", (String c s).
    + destruct (IH H) as [before [from_ [-> Hm]]].
      now exists (String c before), from_.
Qed.

(** X17. What [extractTag] gives for a tag name is a text that stands
    in the input between an opening tag that starts with the name, up to
    its first [>], and a closing tag of the name: the text is not empty and
    does not hold the closing tag, which is the first one after the
    opening tag.  An element that is found with no text in it counts as
    missing. *)
Theorem extractTag_sound (xml tag body : string) :
  extractTag xml tag = Some body ->
  nonEmpty body = true
  /\ exists before attributes after,
      xml = before ++ ("<" ++ tag) ++ attributes ++ ">" ++ body
                   ++ ("</" ++ tag ++ ">") ++ after
      /\ occurs ">" attributes = false
      /\ forall b1 b2, body <> b1 ++ ("</" ++ tag ++ ">") ++ b2.
Proof.
  unfold extractTag. intros H.
  destruct (firstMatch (tagAt tag) xml) as [found|] eqn:Hfirst; [|discriminate].
  destruct (nonEmpty found) eqn:Hne; [|discriminate]. injection H as ->.
  split; [exact Hne|].
  destruct (firstMatch_sound _ _ _ Hfirst) as [before [from_ [-> Hat]]].
  unfold tagAt in Hat.
  destruct (dropPrefix ("<" ++ tag) from_) as [afterName|] eqn:E1; [|discriminate].
  destruct (find ">" afterName) as [[attributes inside]|] eqn:E2; [|discriminate].
  destruct (find ("</" ++ tag ++ ">") inside) as [[found after]|] eqn:E3;
    [|discriminate].
  injection Hat as ->.
  exists before, attributes, after. split; [|split].
  - apply dropPrefix_sound in E1. apply find_sound in E2. apply find_sound in E3.
    now rewrite E1, E2, E3.
  - destruct (occurs ">" attributes) eqn:Hocc; [|reflexivity].
    destruct (occurs_split _ _ Hocc) as [b1 [b2 E]].
    now elim (find_first _ _ _ _ E2 eq_refl b1 b2).
  - apply (find_first _ _ _ _ E3). reflexivity.
Qed.

Lemma extractTag_sound_witness :
  nonEmpty "http://arxiv.org/abs/1706.03762v7" = true
  /\ exists before attributes after,
      sampleEntry
      = before ++ ("<" ++ "id") ++ attributes ++ ">"
               ++ "http://arxiv.org/abs/1706.03762v7"
               ++ ("</" ++ "id" ++ ">") ++ after
      /\ occurs ">" attributes = false
      /\ forall b1 b2,
          "http://arxiv.org/abs/1706.03762v7" <> b1 ++ ("</" ++ "id" ++ ">") ++ b2.
Proof.
  apply (extractTag_sound sampleEntry "id" "http://arxiv.org/abs/1706.03762v7").
  reflexivity.
Defined.

(** An element without text counts as missing, and so does an element
    that follows it. *)
Example extractTag_empty_element :
  extractTag "<doi></doi><doi>10.1000/182</doi>" "doi" = None.
Proof. reflexivity. Qed.


(** ** The identifier of a result *)

Lemma allDigits_cons (c : ascii) (s : string) :
  allDigits (String c s) = isDigit c && allDigits s.
Proof. reflexivity. Qed.

Lemma takeDigits_sound (n : nat) (s ds rest : string) :
  takeDigits n s = Some (ds, rest) ->
  s = ds ++ rest /\ String.length ds = n /\ allDigits ds = true.
Proof.
  revert s ds. induction n as [|n IH]; intros s ds H.
  - injection H as <- <-. now split.
  - destruct s as [|c s]; [discriminate|]. cbn [takeDigits] in H.
    destruct (isDigit c) eqn:Ec; [|discriminate].
    destruct (takeDigits n s) as [[ds' rest']|] eqn:E; [|discriminate].
    injection H as <- <-. destruct (IH _ _ E) as [-> [Hlen Hall]].
    split; [reflexivity|]. split; [simpl; now rewrite Hlen|].
    now rewrite allDigits_cons, Ec.
Qed.

Lemma takeDigits_complete (ds rest : string) :
  allDigits ds = true ->
  takeDigits (String.length ds) (ds ++ rest) = Some (ds, rest).
Proof.
  induction ds as [|c ds IH]; [reflexivity|].
  rewrite allDigits_cons. intros H. apply andb_true_iff in H as [Hc Hds].
  cbn [String.length append takeDigits]. now rewrite Hc, (IH Hds).
Qed.

(** Digits that stop before a character that is no digit, or before the
    end, are not enough for a longer run. *)
Lemma takeDigits_short (n : nat) (ds rest : string) :
  String.length ds < n ->
  match rest with EmptyString => True | String c _ => isDigit c = false end ->
  takeDigits n (ds ++ rest) = None.
Proof.
  revert n. induction ds as [|c ds IH]; intros n Hlen Hrest.
  - destruct n as [|n]; [simpl in Hlen; lia|]. cbn [append].
    destruct rest as [|d rest]; [reflexivity|]. cbn [takeDigits].
    now rewrite Hrest.
  - destruct n as [|n]; [simpl in Hlen; lia|].
    cbn [append takeDigits]. destruct (isDigit c); [|reflexivity].
    rewrite IH; [reflexivity | simpl in Hlen; lia | exact Hrest].
Qed.

Lemma digits_dotless (s : string) : allDigits s = true -> occurs "." s = false.
Proof.
  induction s as [|c s IH]; [reflexivity|].
  rewrite allDigits_cons. intros H. apply andb_true_iff in H as [Hc Hs].
  cbn [occurs]. rewrite (IH Hs), orb_false_r.
  destruct (Ascii.eqb_spec c ".") as [->|_]; [discriminate | reflexivity].
Qed.

Lemma version_dotless (s : string) :
  versionThenEnd s = true -> occurs "." s = false.
Proof.
  destruct s as [|c ds]; [reflexivity|]. cbn [versionThenEnd].
  intros H. apply andb_true_iff in H as [H Hds].
  apply andb_true_iff in H as [Hc _]. apply Ascii.eqb_eq in Hc. subst c.
  cbn [occurs]. now rewrite (digits_dotless _ Hds).
Qed.

Lemma version_starts (s : string) :
  versionThenEnd s = true ->
  match s with EmptyString => True | String c _ => isDigit c = false end.
Proof.
  destruct s as [|c ds]; [trivial|]. cbn [versionThenEnd].
  intros H. apply andb_true_iff in H as [H _].
  apply andb_true_iff in H as [Hc _]. apply Ascii.eqb_eq in Hc. now subst c.
Qed.

Lemma idAt_sound (s group : string) :
  idAt s = Some group ->
  exists x rest,
    s = x ++ "." ++ rest /\ String.length x = 4 /\ occurs "." rest = false.
Proof.
  unfold idAt. intros H.
  destruct (takeDigits 4 s) as [[x r0]|] eqn:E4; [|discriminate].
  destruct r0 as [|dot r]; [discriminate|].
  destruct (Ascii.eqb_spec dot ".") as [->|ne];
    [|destruct dot as [[] [] [] [] [] [] [] []]; try discriminate; now elim ne].
  destruct (takeDigits_sound _ _ _ _ E4) as [-> [Hlen _]].
  exists x, r. split; [reflexivity|]. split; [exact Hlen|].
  assert (Hk : forall k number rest,
             takeDigits k r = Some (number, rest) ->
             versionThenEnd rest = true -> occurs "." r = false).
  { intros k number rest Hk Hv.
    destruct (takeDigits_sound _ _ _ _ Hk) as [-> [_ Hall]].
    now rewrite occurs_append, (digits_dotless _ Hall), (version_dotless _ Hv). }
  destruct (takeDigits 5 r) as [[n5 rest5]|] eqn:E5.
  - destruct (versionThenEnd rest5) eqn:V5; [now apply (Hk 5 n5 rest5)|].
    destruct (takeDigits 4 r) as [[n4 rest4]|] eqn:E4'; [|discriminate].
    destruct (versionThenEnd rest4) eqn:V4; [|discriminate].
    now apply (Hk 4 n4 rest4).
  - destruct (takeDigits 4 r) as [[n4 rest4]|] eqn:E4'; [|discriminate].
    destruct (versionThenEnd rest4) eqn:V4; [|discriminate].
    now apply (Hk 4 n4 rest4).
Qed.

Lemma idAt_complete (a b v : string) :
  String.length a = 4 -> allDigits a = true ->
  String.length b = 4 \/ String.length b = 5 -> allDigits b = true ->
  versionThenEnd v = true ->
  idAt (a ++ "." ++ b ++ v) = Some (a ++ "." ++ b).
Proof.
  intros Ha Da Hb Db Hv. unfold idAt.
  pose proof (takeDigits_complete a ("." ++ b ++ v) Da) as E4.
  rewrite Ha in E4. rewrite E4. cbn [append]. cbv zeta.
  pose proof (takeDigits_complete b v Db) as Eb.
  destruct Hb as [Hb|Hb]; rewrite Hb in Eb.
  - rewrite (takeDigits_short 5 b v); [|lia | now apply version_starts].
    now rewrite Eb, Hv.
  - now rewrite Eb, Hv.
Qed.

(** The text before the last dot of a string is determined. *)
Lemma before_last_dot (x x' r r' : string) :
  x ++ "." ++ r = x' ++ "." ++ r' ->
  occurs "." r = false -> occurs "." r' = false -> x = x'.
Proof.
  intros E Hr Hr'. revert x' E.
  induction x as [|c x IH]; intros [|c' x'] E; cbn [append] in E.
  - reflexivity.
  - injection E as <- E. rewrite E, occurs_append in Hr. cbn in Hr.
    rewrite orb_true_r in Hr. discriminate.
  - injection E as -> E. rewrite <- E, occurs_append in Hr'. cbn in Hr'.
    rewrite orb_true_r in Hr'. discriminate.
  - injection E as <- E. f_equal. now apply IH.
Qed.

Lemma firstMatch_skips (before a b v : string) :
  String.length a = 4 -> allDigits a = true ->
  String.length b = 4 \/ String.length b = 5 -> allDigits b = true ->
  versionThenEnd v = true ->
  firstMatch idAt (before ++ a ++ "." ++ b ++ v) = Some (a ++ "." ++ b).
Proof.
  intros Ha Da Hb Db Hv.
  induction before as [|c before IH]; rewrite firstMatch_eq.
  - change ("" ++ a ++ "." ++ b ++ v) with (a ++ "." ++ b ++ v).
    now rewrite idAt_complete.
  - destruct (idAt (String c before ++ a ++ "." ++ b ++ v)) as [group|] eqn:E.
    + exfalso. destruct (idAt_sound _ _ E) as [x [rest [Es [Hlen Hrest]]]].
      assert (Hdot : occurs "." (b ++ v) = false).
      { now rewrite occurs_append, (digits_dotless _ Db), (version_dotless _ Hv). }
      rewrite <- append_assoc in Es.
      pose proof (before_last_dot _ _ _ _ Es Hdot Hrest) as Ex.
      rewrite <- Ex, string_length_append in Hlen. simpl in Hlen. lia.
    + exact IH.
Qed.

(** X18. From the address of an entry the identifier of the paper is
    taken without its version: when the address ends in four digits, a
    dot, four or five digits and possibly [v] and a version number, the
    identifier is the digits around the dot, whatever stands before them.
    The identifier shown, with [arxiv:] before it, is one that the
    extract-paper tool takes: it gives back the identifier. *)
Theorem paperId_versionless (before a b v : string) :
  String.length a = 4 -> allDigits a = true ->
  String.length b = 4 \/ String.length b = 5 -> allDigits b = true ->
  versionThenEnd v = true ->
  paperId (before ++ a ++ "." ++ b ++ v) = a ++ "." ++ b
  /\ normalizeId ("arxiv:" ++ paperId (before ++ a ++ "." ++ b ++ v))
     = a ++ "." ++ b.
Proof.
  intros Ha Da Hb Db Hv.
  assert (E : paperId (before ++ a ++ "." ++ b ++ v) = a ++ "." ++ b).
  { unfold paperId. now rewrite firstMatch_skips. }
  split; [exact E|].
  rewrite E. unfold normalizeId.
  now rewrite (dropPrefixIgnoreCase_same "arxiv:" "arxiv:").
Qed.

Lemma paperId_versionless_witness :
  paperId ("http://arxiv.org/abs/" ++ "1706" ++ "." ++ "03762" ++ "v7")
  = "1706" ++ "." ++ "03762".
Proof.
  apply (paperId_versionless "http://arxiv.org/abs/" "1706" "03762" "v7");
    try reflexivity.
  right. reflexivity.
Defined.

(** An address of the old form is kept whole, version and all. *)
Example paperId_old_form :
  paperId "http://arxiv.org/abs/hep-th/9901001v1"
  = "http://arxiv.org/abs/hep-th/9901001v1".
Proof. reflexivity. Qed.


(** ** The results and the tool *)







Lemma searchArxiv_cases (net : Network) (getFullYear : string -> option Z)
      (query : string) (log : list Request) :
  searchArxiv net getFullYear query log
  = match net log (searchRequest query) with
    | inr message => (Thrown message, (log ++ [searchRequest query])%list)
    | inl response =>
        (if ok response then parseResults getFullYear (text response)
         else Thrown ("API request failed: " ++ ofNat (status response)),
         (log ++ [searchRequest query])%list)
    end.
Proof.
  unfold searchArxiv, bind, fetch, throw.
  destruct (net log (searchRequest query)) as [response|message]; [|reflexivity].
  cbv beta iota. now destruct (ok response).
Qed.

(** X20. The resolve-paper-id tool never throws and issues one request,
    the search request of the query.  It returns the formatted results
    without the error flag when the API answers [ok] and the feed parses,
    and under the error flag [Error searching arXiv: ] with the message
    of the rejection, with [API request failed: ] and the status of an
    answer that is not [ok], or with the message of the parse. *)
Theorem resolvePaperId_total (net : Network) (getFullYear : string -> option Z)
        (query : string) (log : list Request) :
  exists result,
    resolvePaperId net getFullYear query log
    = (Returned result, (log ++ [searchRequest query])%list)
    /\ (forall message,
           net log (searchRequest query) = inr message ->
           result = searchError message)
    /\ (forall response,
           net log (searchRequest query) = inl response -> ok response = false ->
           result = searchError ("API request failed: " ++ ofNat (status response)))
    /\ (forall response papers,
           net log (searchRequest query) = inl response -> ok response = true ->
           parseResults getFullYear (text response) = Returned papers ->
           result = {| content := formatOutput papers; isError := false |})
    /\ (forall response message,
           net log (searchRequest query) = inl response -> ok response = true ->
           parseResults getFullYear (text response) = Thrown message ->
           result = searchError message).
Proof.
  unfold resolvePaperId, tryCatch, bind, ret. rewrite searchArxiv_cases.
  destruct (net log (searchRequest query)) as [response|message] eqn:Hnet.
  - destruct (ok response) eqn:Hok;
      [destruct (parseResults getFullYear (text response)) as [papers|m] eqn:Hp|];
      eexists; (split; [reflexivity|]); repeat split; intros;
        unfold searchError; congruence.
  - eexists; (split; [reflexivity|]); repeat split; intros;
      unfold searchError; congruence.
Qed.

Lemma resolvePaperId_total_witness :
  resolvePaperId busyServer sampleYear "attention" []
  = (Returned (searchError "API request failed: 503"), [searchRequest "attention"]).
Proof.
  destruct (resolvePaperId_total busyServer sampleYear "attention" [])
    as [result [E [_ [Hbusy _]]]].
  rewrite E.
  rewrite (Hbusy {| status := 503; text := "" |} eq_refl eq_refl).
  reflexivity.
Defined.

(** A feed without entries, and a feed with an entry without address. *)
Example resolve_no_results :
  fst (resolvePaperId (feedServer "<feed></feed>") sampleYear "attention" [])
  = Returned {| content := "No results found."; isError := false |}.
Proof. reflexivity. Qed.

Example resolve_broken_feed :
  fst (resolvePaperId (feedServer brokenFeed) sampleYear "attention" [])
  = Returned (searchError nullMatchMessage).
Proof. reflexivity. Qed.


(** ** Entries, authors and fields *)

Lemma matchAll_In {A} (matchAt : string -> option (A * nat)) (skip : nat)
      (s : string) (x : A) :
  In x (matchAll matchAt skip s) ->
  exists before from_ n, s = before ++ from_ /\ matchAt from_ = Some (x, n).
Proof.
  revert skip. induction s as [|c s IH]; intros skip H; [contradiction|].
  cbn [matchAll] in H.
  assert (Hrec : forall k, In x (matchAll matchAt k s) ->
                 exists before from_ n,
                   String c s = before ++ from_ /\ matchAt from_ = Some (x, n)).
  { intros k Hk. destruct (IH k Hk) as [before [from_ [n [-> E]]]].
    now exists (String c before), from_, n. }
  destruct skip as [|k]; [|now apply (Hrec k)].
  destruct (matchAt (String c s)) as [[y n]|] eqn:E; [|now apply (Hrec 0)].
  destruct H as [<-|H]; [|now apply (Hrec (n - 1))].
  now exists "", (String c s), n.
Qed.

(** X21. Each entry that is cut out of the feed stands in the feed as it
    is, opens with [<entry>] and runs to the first [</entry>] after it:
    it holds no other closing tag of an entry. *)
Theorem entries_well_formed (xml entry : string) :
  In entry (matchEntries xml) ->
  exists before body after,
    xml = before ++ entry ++ after
    /\ entry = "<entry>" ++ body ++ "</entry>"
    /\ forall b1 b2, body <> b1 ++ "</entry>" ++ b2.
Proof.
  intros H. destruct (matchAll_In _ _ _ _ H) as [before [from_ [n [-> Hat]]]].
  unfold entryAt in Hat.
  destruct (dropPrefix "<entry>" from_) as [rest|] eqn:E1; [|discriminate].
  destruct (find "</entry>" rest) as [[body after]|] eqn:E2; [|discriminate].
  injection Hat as <- _. exists before, body, after. split; [|split].
  - apply dropPrefix_sound in E1. apply find_sound in E2. rewrite E1, E2.
    f_equal. cbn [append]. rewrite append_assoc. reflexivity.
  - reflexivity.
  - apply (find_first _ _ _ _ E2). reflexivity.
Qed.

Lemma entries_well_formed_witness :
  exists before body after,
    sampleFeed = before ++ sampleEntry ++ after
    /\ sampleEntry = "<entry>" ++ body ++ "</entry>"
    /\ forall b1 b2, body <> b1 ++ "</entry>" ++ b2.
Proof.
  apply (entries_well_formed sampleFeed sampleEntry).
  vm_compute. left. reflexivity.
Defined.

Lemma span_sound (p : ascii -> bool) (s : string) :
  s = fst (span p s) ++ snd (span p s) /\ allChars p (fst (span p s)) = true.
Proof.
  induction s as [|c s [IH1 IH2]]; [now split|].
  cbn [span]. destruct (p c) eqn:Ec; [|now split].
  destruct (span p s) as [run rest]. cbn [fst snd] in *.
  split; [cbn [append]; now f_equal | cbn [allChars]; now rewrite Ec].
Qed.

(** X22. Each author of a result is the text of a [name] element that
    is the whole content of an [author] element, white space apart: the
    name is not empty and holds no [<], so no markup. *)
Theorem author_names (entry name : string) :
  In name (matchAll authorAt 0 entry) ->
  nonEmpty name = true
  /\ occurs "<" name = false
  /\ exists before space1 space2 after,
      entry = before ++ "<author>" ++ space1 ++ "<name>" ++ name ++ "</name>"
                     ++ space2 ++ "</author>" ++ after
      /\ allChars isSpace space1 = true /\ allChars isSpace space2 = true.
Proof.
  intros H. destruct (matchAll_In _ _ _ _ H) as [before [from_ [n [-> Hat]]]].
  unfold authorAt in Hat.
  destruct (dropPrefix "<author>" from_) as [r1|] eqn:E1; [|discriminate].
  pose proof (span_sound isSpace r1) as [S1 W1].
  destruct (span isSpace r1) as [space1 rest1]. cbn [fst snd] in Hat, S1, W1.
  destruct (dropPrefix "<name>" rest1) as [r2|] eqn:E2; [|discriminate].
  pose proof (span_sound (fun c => negb (Ascii.eqb c "<")) r2) as [S2 W2].
  destruct (span (fun c => negb (Ascii.eqb c "<")) r2) as [found r3].
  cbn [fst snd] in S2, W2.
  destruct (nonEmpty found) eqn:Hne; [|discriminate].
  destruct (dropPrefix "</name>" r3) as [r4|] eqn:E3; [|discriminate].
  pose proof (span_sound isSpace r4) as [S4 W4].
  destruct (span isSpace r4) as [space2 rest4]. cbn [fst snd] in Hat, S4, W4.
  destruct (dropPrefix "</author>" rest4) as [r5|] eqn:E4; [|discriminate].
  injection Hat as -> _.
  split; [exact Hne|]. split.
  - apply (allChars_occurs _ _ _ W2). reflexivity.
  - exists before, space1, space2, r5.
    split; [|split; assumption].
    apply dropPrefix_sound in E1, E2, E3, E4.
    subst from_ r1 rest1 r2 r3 r4 rest4. normalise_append.
Qed.

Lemma author_names_witness :
  nonEmpty "Ashish Vaswani" = true /\ occurs "<" "Ashish Vaswani" = false.
Proof.
  destruct (author_names sampleEntry "Ashish Vaswani") as [Hne [Hlt _]].
  - vm_compute. left. reflexivity.
  - split; [exact Hne | exact Hlt].
Defined.

Lemma trimStart_singleSpaced (b : bool) (s : string) :
  singleSpaced b s = true -> singleSpaced false (trimStart s) = true.
Proof.
  revert b. induction s as [|c s IH]; intros b H; [reflexivity|].
  cbn [singleSpaced] in H. cbn [trimStart].
  destruct (isSpace c) eqn:Ec.
  - apply andb_true_iff in H as [_ H]. now apply (IH true).
  - cbn [singleSpaced]. now rewrite Ec.
Qed.

Lemma trimEnd_singleSpaced (b : bool) (s : string) :
  singleSpaced b s = true -> singleSpaced b (trimEnd s) = true.
Proof.
  revert b. induction s as [|c s IH]; intros b H; [reflexivity|].
  cbn [singleSpaced] in H. cbn [trimEnd].
  destruct (isSpace c && negb (nonEmpty (trimEnd s))); [reflexivity|].
  cbn [singleSpaced]. destruct (isSpace c).
  - apply andb_true_iff in H as [H1 H2]. rewrite H1. now apply IH.
  - now apply IH.
Qed.

Lemma tidy_oneLine (field : option string) (s : string) :
  tidy field = Some s -> oneLine s = true.
Proof.
  destruct field as [raw|]; [|discriminate]. cbn [tidy]. intros H.
  injection H as <-. unfold oneLine, trim.
  rewrite trimEnd_singleSpaced, trimEnd_startsClean, trimEnd_endsClean;
    [reflexivity | apply trimStart_startsClean |].
  apply (trimStart_singleSpaced false), collapse_singleSpaced.
Qed.

Lemma orNull_Some (field : option string) (s : string) :
  orNull field = Some s -> field = Some s.
Proof.
  destruct field as [t|]; [|discriminate]. cbn [orNull].
  destruct (nonEmpty t); [trivial | discriminate].
Qed.

(** X23. The title, the abstract, the comment and the journal reference
    of a result are each on one line in normal form: the white space of
    the feed, line ends and indentation included, is brought down to
    single spaces, and none is left at the ends. *)
Theorem result_fields_on_one_line (getFullYear : string -> option Z)
        (entry : string) (paper : Paper) (s : string) :
  parseEntry getFullYear entry = Returned paper ->
  title paper = Some s \/ abstract paper = Some s
  \/ comment paper = Some s \/ journalRef paper = Some s ->
  oneLine s = true.
Proof.
  unfold parseEntry. destruct (extractTag entry "id") as [id|]; [|discriminate].
  intros H. injection H as <-. cbn [title abstract comment journalRef].
  intros [H|[H|[H|H]]].
  - exact (tidy_oneLine _ _ H).
  - exact (tidy_oneLine _ _ H).
  - exact (tidy_oneLine _ _ (orNull_Some _ _ H)).
  - exact (tidy_oneLine _ _ (orNull_Some _ _ H)).
Qed.

Lemma result_fields_on_one_line_witness :
  oneLine "Attention Is All You Need" = true.
Proof.
  destruct (parseEntry sampleYear sampleEntry) as [paper|message] eqn:E;
    [|discriminate].
  apply (result_fields_on_one_line sampleYear sampleEntry paper
           "Attention Is All You Need" E).
  left. vm_compute in E. now injection E as <-.
Defined.


(** ** The formatted results *)

Lemma resultLines_shape (r : Paper) :
  resultLines r
  = List.app
      ["----------";
       "- Title: " ++ showText (title r);
       "- Arxiv ID: " ++ arxivId r;
       "- Authors: " ++ join ", " (authors r);
       "- Year: " ++ showYear (year r);
       "- Category: " ++ orElse (category r) "N/A"]
      (List.app
         (if truthy (comment r)
          then ["- Comment: " ++ showText (comment r)] else [])
         (List.app
            (if truthy (journalRef r) || truthy (doi r)
             then ["- Journal/DOI: " ++ join " / " (present [journalRef r; doi r])]
             else [])
            ["- Abstract: " ++ showText (abstract r)])).
Proof.
  unfold resultLines. cbv zeta.
  destruct (truthy (comment r)), (truthy (journalRef r) || truthy (doi r));
    reflexivity.
Qed.

Lemma truthy_present (field : option string) :
  truthy field = true -> exists s, field = Some s /\ orNull field = Some s.
Proof.
  destruct field as [s|]; [|discriminate]. cbn [truthy orNull].
  intros H. rewrite H. now exists s.
Qed.

Lemma not_truthy_absent (field : option string) :
  truthy field = false -> orNull field = None.
Proof.
  destruct field as [s|]; [|reflexivity]. cbn [truthy orNull]. now intros ->.
Qed.

(** X24. The array [lines] that [formatOutput] builds for a result has
    a journal entry exactly when the result has a journal reference or a
    DOI: the entry shows the two with a slash between them when it has
    both, the one it has otherwise, and without either no entry of the
    array starts with [- Journal/DOI: ].  This is about the entries of
    the array before they are joined, not about the lines of the text:
    an entry holds its field as it is and may run over several lines. *)
Theorem journal_doi_line (r : Paper) :
  (forall j d, journalRef r = Some j -> doi r = Some d ->
               nonEmpty j = true -> nonEmpty d = true ->
               In ("- Journal/DOI: " ++ j ++ " / " ++ d) (resultLines r))
  /\ (forall j, journalRef r = Some j -> nonEmpty j = true ->
                truthy (doi r) = false ->
                In ("- Journal/DOI: " ++ j) (resultLines r))
  /\ (forall d, doi r = Some d -> nonEmpty d = true ->
                truthy (journalRef r) = false ->
                In ("- Journal/DOI: " ++ d) (resultLines r))
  /\ (truthy (journalRef r) = false -> truthy (doi r) = false ->
      forall entry, In entry (resultLines r) ->
                    startsWith entry "- Journal/DOI: " = false).
Proof.
  rewrite resultLines_shape. split; [|split; [|split]].
  - intros j d Ej Ed Hj Hd. rewrite Ej, Ed. cbn [truthy]. rewrite Hj, Hd.
    cbn [orb]. apply in_or_app. right. apply in_or_app. right.
    apply in_or_app. left. unfold present. cbn [flat_map orNull].
    rewrite Hj, Hd. left. reflexivity.
  - intros j Ej Hj Hd. rewrite Ej. cbn [truthy]. rewrite Hj. cbn [orb].
    apply in_or_app. right. apply in_or_app. right. apply in_or_app. left.
    unfold present. cbn [flat_map orNull]. rewrite Hj, (not_truthy_absent _ Hd).
    left. reflexivity.
  - intros d Ed Hd Hj. rewrite Hj, Ed. cbn [truthy]. rewrite Hd. cbn [orb].
    apply in_or_app. right. apply in_or_app. right. apply in_or_app. left.
    unfold present. cbn [flat_map]. rewrite (not_truthy_absent _ Hj).
    cbn [orNull]. rewrite Hd. left. reflexivity.
  - intros Hj Hd entry. rewrite Hj, Hd. cbn [orb].
    destruct (truthy (comment r)); cbn [List.app In];
      intros H; repeat (destruct H as [<-|H]; [reflexivity|]); contradiction.
Qed.

Lemma journal_doi_line_witness :
  In "- Journal/DOI: Nature 1 / 10.1000/182"
     (resultLines {| title := Some "T"; arxivId := "arxiv:1706.03762";
                     authors := ["A"]; year := NoYear; category := None;
                     comment := None; journalRef := Some "Nature 1";
                     doi := Some "10.1000/182"; abstract := Some "S" |}).
Proof.
  apply (proj1 (journal_doi_line
                  {| title := Some "T"; arxivId := "arxiv:1706.03762";
                     authors := ["A"]; year := NoYear; category := None;
                     comment := None; journalRef := Some "Nature 1";
                     doi := Some "10.1000/182"; abstract := Some "S" |})
           "Nature 1" "10.1000/182");
    reflexivity.
Defined.

Lemma join_first (sep x : string) (rest : list string) :
  exists tail, join sep (x :: rest) = x ++ tail.
Proof.
  destruct rest as [|y rest]; cbn [join String.concat].
  - exists "". now rewrite append_empty_r.
  - now eexists.
Qed.

(** X25. [formatOutput] gives [No results found.] for an empty list
    and for no other: the output for one or more results opens with a
    rule line, and it closes with an empty line and a rule line. *)
Theorem formatOutput_frame (results : list Paper) :
  (formatOutput results = "No results found." <-> results = [])
  /\ (results <> [] ->
      exists middle,
        formatOutput results
        = "----------" ++ middle ++ LF ++ LF ++ "----------").
Proof.
  assert (Hframe : results <> [] ->
                   exists middle,
                     formatOutput results
                     = "----------" ++ middle ++ LF ++ LF ++ "----------").
  { destruct results as [|r rest]; [now intros H|]. intros _.
    unfold formatOutput. cbn [map].
    destruct (join_first (LF ++ LF) (join LF (resultLines r))
                (map (fun r => join LF (resultLines r)) rest)) as [tail ->].
    rewrite resultLines_shape. cbn [List.app].
    match goal with
    | |- context [join LF ("----------" :: ?l)] =>
        destruct (join_first LF "----------" l) as [tail' ->]
    end.
    exists (tail' ++ tail). normalise_append. }
  split; [|exact Hframe].
  split.
  - intros H. destruct results as [|r rest]; [reflexivity|].
    destruct Hframe as [middle E]; [discriminate|].
    rewrite E in H. discriminate.
  - now intros ->.
Qed.

Lemma formatOutput_frame_witness :
  exists middle,
    formatOutput [{| title := Some "T"; arxivId := "arxiv:1706.03762";
                     authors := ["A"]; year := NoYear; category := None;
                     comment := None; journalRef := None;
                     doi := None; abstract := None |}]
    = "----------" ++ middle ++ LF ++ LF ++ "----------".
Proof.
  apply (proj2 (formatOutput_frame
                  [{| title := Some "T"; arxivId := "arxiv:1706.03762";
                      authors := ["A"]; year := NoYear; category := None;
                      comment := None; journalRef := None;
                      doi := None; abstract := None |}])).
  discriminate.
Defined.

(** A result without title, year and category. *)
Example formatOutput_missing_fields :
  formatOutput [{| title := None; arxivId := "arxiv:1706.03762";
                   authors := []; year := NoYear; category := None;
                   comment := None; journalRef := None;
                   doi := None; abstract := None |}]
  = "----------" ++ LF ++ "- Title: undefined" ++ LF
    ++ "- Arxiv ID: arxiv:1706.03762" ++ LF ++ "- Authors: " ++ LF
    ++ "- Year: null" ++ LF ++ "- Category: N/A" ++ LF
    ++ "- Abstract: undefined" ++ LF ++ LF ++ "----------".
Proof. reflexivity. Qed.

End SearchFacts.
